(** * foyer/utils/io.py: the guarded importer [import_]

    A shallow embedding of [foyer.utils.io]: the exception class
    [DelayImportError], the hint table [MESSAGES], the function [import_]
    and the module-level probe that sets [has_mbuild].

    Python text is modelled by [string] (one [ascii] per character), the
    module globals and the two standard streams by a record that is
    threaded through a state-and-exception monad, and everything the
    interpreter supplies at a call (the module loader, the call stack, the
    [os] module) by a [Host] record. *)

From Stdlib Require Import ZArith Ascii String DecimalString.
From stdpp Require Import base option list strings gmap.

Local Open Scope string_scope.
Local Open Scope list_scope.

(** ** Characters that cannot be written inside a literal *)

Definition LF : string := String "010"%char "".      (* "\n" *)
Definition CR : string := String "013"%char "".      (* "\r" *)
Definition ESC : string := String "027"%char "".     (* "\033" *)
Definition DQ : string := String "034"%char "".      (* the double quote *)

(** ** The [str] methods the module uses *)

Module Str.

(** [s.startswith(p)] *)
Fixpoint startswith (s p : string) : bool :=
  match p, s with
  | "", _ => true
  | String _ _, "" => false
  | String a p', String b s' =>
      if Ascii.eqb a b then startswith s' p' else false
  end.

(** [c * n] for a one-character string [c] *)
Fixpoint repeat (c : ascii) (n : nat) : string :=
  match n with
  | O => ""
  | S k => String c (repeat c k)
  end.

(** Prepend a character to the piece that is being collected. *)
Definition push (c : ascii) (pieces : list string) : list string :=
  match pieces with
  | [] => [String c ""]
  | p :: ps => String c p :: ps
  end.

(** The scan behind [s.split(sep)] for a separator [String c0 sep'];
    [skip] counts the characters of a separator just matched that are
    still to be consumed. *)
Fixpoint split_go (c0 : ascii) (sep' : string) (skip : nat) (s : string)
  : list string :=
  match s with
  | "" => [""]
  | String c s' =>
      match skip with
      | S k => split_go c0 sep' k s'
      | O =>
          if Ascii.eqb c c0 && startswith s' sep'
          then "" :: split_go c0 sep' (String.length sep') s'
          else push c (split_go c0 sep' O s')
      end
  end.

(** [s.split(sep)]: [None] stands for the [ValueError] Python raises for
    an empty separator. *)
Definition split (s sep : string) : option (list string) :=
  match sep with
  | "" => None
  | String c0 sep' => Some (split_go c0 sep' O s)
  end.

(** [sep.join(pieces)] *)
Fixpoint join (sep : string) (pieces : list string) : string :=
  match pieces with
  | [] => ""
  | [p] => p
  | p :: ps => p +:+ sep +:+ join sep ps
  end.

(** [str(n)] for an [int] *)
Definition of_int (n : Z) : string := NilZero.string_of_int (Z.to_int n).

End Str.

(** [max(xs)] over a sequence of lengths; [None] stands for the
    [ValueError] of an empty sequence. *)
Definition py_max (xs : list nat) : option nat :=
  match xs with
  | [] => None
  | x :: xs' => Some (foldl Nat.max x xs')
  end.

(** ** Exceptions

    The classes that can occur at a call of [import_], with the bases each
    class statement lists.  [DelayImportError] is the only class the module
    declares: [class DelayImportError(ImportError, SkipTest)]. *)

Inductive exn_class : Type :=
  | BaseException | Exception
  | ImportError | ModuleNotFoundError
  | LookupError | KeyError | IndexError
  | ValueError | TypeError | SyntaxError | KeyboardInterrupt
  | SkipTest
  | DelayImportError.

Global Instance exn_class_eq_dec : EqDecision exn_class.
Proof. solve_decision. Defined.

Definition bases (c : exn_class) : list exn_class :=
  match c with
  | BaseException => []
  | Exception => [BaseException]
  | ImportError => [Exception]
  | ModuleNotFoundError => [ImportError]
  | LookupError => [Exception]
  | KeyError => [LookupError]
  | IndexError => [LookupError]
  | ValueError => [Exception]
  | TypeError => [Exception]
  | SyntaxError => [Exception]
  | KeyboardInterrupt => [BaseException]
  | SkipTest => [Exception]
  | DelayImportError => [ImportError; SkipTest]
  end.

(** [issubclass(c, d)], following base classes at most [depth] levels up. *)
Fixpoint issubclass_upto (depth : nat) (c d : exn_class) : bool :=
  bool_decide (c = d) ||
  match depth with
  | O => false
  | S k => existsb (fun b => issubclass_upto k b d) (bases c)
  end.

(** No class above is more than four levels below [BaseException]. *)
Definition issubclass : exn_class -> exn_class -> bool := issubclass_upto 4.

(** An exception object: its class and the text [str(e)] gives. *)
Record exn : Type := mk_exn { exn_type : exn_class; exn_str : string }.

Global Instance exn_eq_dec : EqDecision exn.
Proof. solve_decision. Defined.

(** [isinstance(e, c)], which is also what [except c:] tests. *)
Definition isinstance (e : exn) (c : exn_class) : bool :=
  issubclass (exn_type e) c.

(** The result of running Python code.  [Unsupported] marks a run that
    used a feature of the interpreter outside this embedding (see
    [Fmt.format]); no theorem concludes anything from it. *)
Inductive outcome (A : Type) : Type :=
  | Return (a : A)
  | Raise (e : exn)
  | Unsupported.
Arguments Return {A} a.
Arguments Raise {A} e.
Arguments Unsupported {A}.

Module Fmt.

Definition is_digit (c : ascii) : bool :=
  (48 <=? nat_of_ascii c)%nat && (nat_of_ascii c <=? 57)%nat.

Fixpoint all_digits (s : string) : bool :=
  match s with
  | "" => true
  | String c s' => is_digit c && all_digits s'
  end.

Inductive field : Type :=
  | Field (name rest : string)   (* [name] up to its closing brace *)
  | FieldError (msg : string)    (* a [ValueError] *)
  | FieldOther.                  (* conversion, spec, attribute or index *)

(** Read a replacement field from just after its opening brace. *)
Fixpoint scan_field (s : string) : field :=
  match s with
  | "" => FieldError "expected '}' before end of string"
  | String c s' =>
      if Ascii.eqb c "}" then Field "" s'
      else if Ascii.eqb c "{" then FieldError "unexpected '{' in field name"
      else if Ascii.eqb c "!" || Ascii.eqb c ":" || Ascii.eqb c "."
              || Ascii.eqb c "["
      then FieldOther
      else match scan_field s' with
           | Field name rest => Field (String c name) rest
           | other => other
           end
  end.

Definition kwargs : Type := list (string * string).

Fixpoint get (kw : kwargs) (name : string) : option string :=
  match kw with
  | [] => None
  | (k, v) :: kw' => if String.eqb k name then Some v else get kw' name
  end.

Definition prepend (p : string) (o : outcome string) : outcome string :=
  match o with
  | Return s => Return (p +:+ s)
  | Raise e => Raise e
  | Unsupported => Unsupported
  end.

(** The scan of [str.format] over the template, left to right; [fuel]
    bounds the number of steps and the length of the template is always
    enough, since every step consumes a character. *)
Fixpoint format_go (fuel : nat) (kw : kwargs) (s : string) : outcome string :=
  match fuel with
  | O => match s with "" => Return "" | _ => Unsupported end
  | S fuel' =>
      match s with
      | "" => Return ""
      | String c s' =>
          if Ascii.eqb c "{" then
            match s' with
            | "" => Raise (mk_exn ValueError
                             "Single '{' encountered in format string")
            | String c' s'' =>
                if Ascii.eqb c' "{" then prepend "{" (format_go fuel' kw s'')
                else
                  match scan_field s' with
                  | Field name rest =>
                      match get kw name with
                      | Some v => prepend v (format_go fuel' kw rest)
                      | None =>
                          if all_digits name
                          then Raise (mk_exn IndexError
                            ("Replacement index "
                               +:+ (if String.eqb name "" then "0" else name)
                               +:+ " out of range for positional args tuple"))
                          else Raise (mk_exn KeyError ("'" +:+ name +:+ "'"))
                      end
                  | FieldError msg => Raise (mk_exn ValueError msg)
                  | FieldOther => Unsupported
                  end
            end
          else if Ascii.eqb c "}" then
            match s' with
            | String "}" s'' => prepend "}" (format_go fuel' kw s'')
            | _ => Raise (mk_exn ValueError
                            "Single '}' encountered in format string")
            end
          else prepend (String c "") (format_go fuel' kw s')
      end
  end.

(** [template.format] called with the keyword arguments [kw], every
    value of which is already the text of its argument ([str] of a
    [str] or of an [int]). *)
Definition format (template : string) (kw : kwargs) : outcome string :=
  format_go (String.length template) kw template.

End Fmt.

(** ** [textwrap.dedent]

    The standard-library function as CPython defines it up to 3.13.  Its
    three regular expressions are multi-line patterns anchored at the
    start of a line, so they are read here line by line:
    - the whitespace-only pattern matches a line made of one or more
      blanks and tabs, which is replaced by the empty line;
    - the leading-whitespace pattern captures the blanks and tabs that
      lead a line which has some other character after them;
    - the last substitution deletes the margin at the start of each line
      that begins with it. *)

Module Textwrap.

Definition is_blank (c : ascii) : bool :=
  Ascii.eqb c " " || Ascii.eqb c "009".

(** The blanks and tabs a line starts with, and what follows them. *)
Fixpoint span_blank (l : string) : string * string :=
  match l with
  | "" => ("", "")
  | String c l' =>
      if is_blank c
      then let '(ws, rest) := span_blank l' in (String c ws, rest)
      else ("", l)
  end.

Definition lines (text : string) : list string :=
  Str.split_go "010" "" O text.

(** [_whitespace_only_re.sub('', text)] on one line *)
Definition blank_out (l : string) : string :=
  match l, span_blank l with
  | String _ _, (_, "") => ""
  | _, _ => l
  end.

(** [_leading_whitespace_re.findall(text)] on one line *)
Definition indent_of (l : string) : list string :=
  match span_blank l with
  | (ws, String _ _) => [ws]
  | (_, "") => []
  end.

(** [margin[:i]] for the first [i] at which [margin] and [indent] differ *)
Fixpoint common_prefix (margin indent : string) : string :=
  match margin, indent with
  | String x m', String y i' =>
      if Ascii.eqb x y then String x (common_prefix m' i') else ""
  | _, _ => ""
  end.

(** One turn of the loop [for indent in indents]. *)
Definition narrow (margin : option string) (indent : string) : option string :=
  match margin with
  | None => Some indent
  | Some m =>
      if Str.startswith indent m then Some m
      else if Str.startswith m indent then Some indent
      else Some (common_prefix m indent)
  end.

(** [l] without the prefix [p], when it starts with it *)
Fixpoint drop_prefix (p l : string) : option string :=
  match p, l with
  | "", _ => Some l
  | String a p', String b l' =>
      if Ascii.eqb a b then drop_prefix p' l' else None
  | String _ _, "" => None
  end.

(** [re.sub(r'(?m)^' + margin, '', text)] on one line *)
Definition strip_margin (margin l : string) : string :=
  match drop_prefix margin l with
  | Some rest => rest
  | None => l
  end.

Definition dedent (text : string) : string :=
  let ls := map blank_out (lines text) in
  let indents := concat (map indent_of ls) in
  match foldl narrow None indents with
  | Some (String c m) => Str.join LF (map (strip_margin (String c m)) ls)
  | _ => Str.join LF ls
  end.

End Textwrap.

(** ** [posixpath.basename]: what follows the last slash *)

Definition posix_basename (p : string) : string :=
  List.last (Str.split_go "/" "" O p) "".

(** ** The interpreter state and the monad of Python code *)

(** A module object, as [importlib.import_module] returns it. *)
Record module_object : Type :=
  { module_name : string; module_id : N }.

(** The globals of [foyer.utils.io] that its code assigns ([None]: the
    name is not bound) and the text written so far to the two streams. *)
Record state : Type := {
  g_MESSAGES : gmap string string;
  g_has_mbuild : option bool;
  g_mbuild : option module_object;
  sys_stdout : string;
  sys_stderr : string
}.

Definition py (A : Type) : Type := state -> outcome A * state.

Definition ret {A} (a : A) : py A := fun st => (Return a, st).

Definition raise {A} (e : exn) : py A := fun st => (Raise e, st).

Definition bind {A B} (c : py A) (k : A -> py B) : py B :=
  fun st =>
    match c st with
    | (Return a, st') => k a st'
    | (Raise e, st') => (Raise e, st')
    | (Unsupported, st') => (Unsupported, st')
    end.

Declare Scope py_scope.
Delimit Scope py_scope with py.
Bind Scope py_scope with py.
Notation "x <- c ;; k" := (bind c (fun x => k))
  (at level 100, c at next level, k at level 200, right associativity)
  : py_scope.
Notation "c ;; k" := (bind c (fun _ => k))
  (at level 100, k at level 200, right associativity) : py_scope.
Local Open Scope py_scope.

(** [try: body except cls: handler] *)
Definition try_except {A} (body : py A) (cls : exn_class)
    (handler : exn -> py A) : py A :=
  fun st =>
    match body st with
    | (Raise e, st') =>
        if isinstance e cls then handler e st' else (Raise e, st')
    | r => r
    end.

(** A value computed without touching the state. *)
Definition lift {A} (o : outcome A) : py A := fun st => (o, st).

Inductive stream : Type := Stdout | Stderr.

(** [print(s, file=f)]: the text, then the default [end], a newline. *)
Definition print (s : string) (file : stream) : py unit :=
  fun st =>
    (Return tt,
     match file with
     | Stdout =>
         {| g_MESSAGES := g_MESSAGES st; g_has_mbuild := g_has_mbuild st;
            g_mbuild := g_mbuild st;
            sys_stdout := sys_stdout st +:+ s +:+ LF;
            sys_stderr := sys_stderr st |}
     | Stderr =>
         {| g_MESSAGES := g_MESSAGES st; g_has_mbuild := g_has_mbuild st;
            g_mbuild := g_mbuild st;
            sys_stdout := sys_stdout st;
            sys_stderr := sys_stderr st +:+ s +:+ LF |}
     end).

(** [MESSAGES[key]] *)
Definition MESSAGES_getitem (key : string) : py string :=
  fun st =>
    match g_MESSAGES st !! key with
    | Some v => (Return v, st)
    | None => (Raise (mk_exn KeyError ("'" +:+ key +:+ "'")), st)
    end.

(** [MESSAGES[key] = value] *)
Definition MESSAGES_setitem (key value : string) : py unit :=
  fun st =>
    (Return tt,
     {| g_MESSAGES := <[key := value]> (g_MESSAGES st);
        g_has_mbuild := g_has_mbuild st; g_mbuild := g_mbuild st;
        sys_stdout := sys_stdout st; sys_stderr := sys_stderr st |}).

(** [MESSAGES = dict()] *)
Definition MESSAGES_new : py unit :=
  fun st =>
    (Return tt,
     {| g_MESSAGES := ∅;
        g_has_mbuild := g_has_mbuild st; g_mbuild := g_mbuild st;
        sys_stdout := sys_stdout st; sys_stderr := sys_stderr st |}).

(** [has_mbuild = b] *)
Definition set_has_mbuild (b : bool) : py unit :=
  fun st =>
    (Return tt,
     {| g_MESSAGES := g_MESSAGES st;
        g_has_mbuild := Some b; g_mbuild := g_mbuild st;
        sys_stdout := sys_stdout st; sys_stderr := sys_stderr st |}).

(** Binding the name [mbuild] ([Some]) and [del mbuild] ([None]). *)
Definition set_mbuild (m : option module_object) : py unit :=
  fun st =>
    (Return tt,
     {| g_MESSAGES := g_MESSAGES st;
        g_has_mbuild := g_has_mbuild st; g_mbuild := m;
        sys_stdout := sys_stdout st; sys_stderr := sys_stderr st |}).

(** [l[i]] on a list *)
Definition list_getitem {A} (l : list A) (i : nat) : py A :=
  match l !! i with
  | Some a => ret a
  | None => raise (mk_exn IndexError "list index out of range")
  end.

(** [s.split(sep)] and [max(...)] with their [ValueError]s. *)
Definition str_split (s sep : string) : py (list string) :=
  match Str.split s sep with
  | Some pieces => ret pieces
  | None => raise (mk_exn ValueError "empty separator")
  end.

Definition max_ (xs : list nat) : py nat :=
  match py_max xs with
  | Some n => ret n
  | None => raise (mk_exn ValueError "max() arg is an empty sequence")
  end.

(** ** What the interpreter supplies at a call *)

(** One entry of [inspect.getouterframes]: the tuple the source unpacks
    into [frame, filename, line_number, function_name, lines, index]. *)
Record FrameInfo : Type := {
  frame : N;
  filename : string;
  line_number : Z;
  function_name : string;
  lines : option (list string);
  index : option Z
}.

(** [os.name], which decides [os.linesep] (see [os.py]). *)
Inductive os_name : Type := posix | nt.

Definition linesep (o : os_name) : string :=
  match o with
  | posix => LF
  | nt => CR +:+ LF
  end.

Record Host : Type := {
  (** [importlib.import_module]: it may run the code of the module it
      loads, hence a computation on the state. *)
  import_module : string -> py module_object;
  (** [inspect.getouterframes(inspect.currentframe())] inside [import_]:
      the frame of [import_] first, then its caller, and so on. *)
  getouterframes : list FrameInfo;
  os : os_name;
  (** [os.path.basename] *)
  basename : string -> string
}.

(** ** The module [foyer.utils.io] *)

(** A text given by its lines, each ended by a newline. *)
Definition text_of_lines (ls : list string) : string :=
  foldr (fun l acc => l +:+ LF +:+ acc) "" ls.

(** The three templates, as the triple-quoted literals of the source. *)
Definition mbuild_template : string :=
  text_of_lines
    [ "";
      "";
      "The code at {filename}:{line_number} requires the "
        +:+ DQ +:+ "mbuild" +:+ DQ +:+ " package";
      "";
      "mbuild can be installed using:";
      "";
      "# conda install -c conda-forge mbuild";
      "" ].

Definition gmso_template : string :=
  text_of_lines
    [ "";
      "";
      "The code at {filename}:{line_number} requires the "
        +:+ DQ +:+ "gmso" +:+ DQ +:+ " package";
      "";
      "gmso can be installed using:";
      "";
      "# conda install -c conda-forge gmso" ].

Definition openff_template : string :=
  text_of_lines
    [ "";
      "";
      "The code at {filename}:{line_number} requires the "
        +:+ DQ +:+ "openff-toolkit" +:+ DQ +:+ " package";
      "";
      "openff-toolkit can be installed using:";
      "";
      "# conda install -c conda-forge openff-toolkit" ].

(** The dictionary the module body builds: [MESSAGES = dict()] followed by
    the three item assignments. *)
Definition MESSAGES : gmap string string :=
  <["openff.toolkit" := openff_template]>
    (<["gmso" := gmso_template]>
       (<["mbuild" := mbuild_template]> ∅)).

(** The template the [except KeyError] branch builds. *)
Definition fallback_template (module : string) : string :=
  "The code at {filename}:{line_number} requires the "
    +:+ module +:+ " package".

(** The separator bar: bright red on, the row of [#], reset. *)
Definition bar_of (width : nat) : string :=
  ESC +:+ "[91m" +:+ Str.repeat "#" width +:+ ESC +:+ "[0m".

(** [def import_(module)] *)
Definition import_ (h : Host) (module : string) : py module_object :=
  try_except (import_module h module) ImportError (fun _ =>
    message <-
      try_except (MESSAGES_getitem module) KeyError (fun _ =>
        let message := fallback_template module in
        raise (mk_exn ImportError ("No module named " +:+ module))) ;;
    caller <- list_getitem (getouterframes h) 1 ;;
    m <- lift (Fmt.format message
                 [ ("filename", basename h (filename caller));
                   ("line_number", Str.of_int (line_number caller)) ]) ;;
    let m := Textwrap.dedent m in
    pieces <- str_split m (linesep (os h)) ;;
    width <- max_ (map String.length pieces) ;;
    let bar := bar_of width in
    print "" Stderr ;;
    print bar Stderr ;;
    print m Stderr ;;
    print bar Stderr ;;
    raise (mk_exn DelayImportError m)).

(** The statements of the module body that touch the state: the table,
    then the probe for [mbuild]. *)
Definition module_body (h : Host) : py unit :=
  MESSAGES_new ;;
  MESSAGES_setitem "mbuild" mbuild_template ;;
  MESSAGES_setitem "gmso" gmso_template ;;
  MESSAGES_setitem "openff.toolkit" openff_template ;;
  try_except
    (mbuild <- import_module h "mbuild" ;;
     set_mbuild (Some mbuild) ;;
     set_has_mbuild true ;;
     set_mbuild None)
    ImportError
    (fun _ => set_has_mbuild false).

(** ** Sample hosts and runs *)

Definition no_such_module (name : string) : exn :=
  mk_exn ModuleNotFoundError ("No module named '" +:+ name +:+ "'").

(** A loader for an environment in which only [numpy] is installed. *)
Definition bare_loader (name : string) : py module_object :=
  if String.eqb name "numpy"
  then ret {| module_name := "numpy"; module_id := 1 |}
  else raise (no_such_module name).

Definition sample_frames : list FrameInfo :=
  [ {| frame := 2; filename := "/site-packages/foyer/utils/io.py";
       line_number := 87; function_name := "import_";
       lines := None; index := None |};
    {| frame := 1; filename := "/home/u/proj/run.py";
       line_number := 12; function_name := "<module>";
       lines := None; index := None |} ].

Definition bare_host : Host :=
  {| import_module := bare_loader; getouterframes := sample_frames;
     os := posix; basename := posix_basename |}.

(** The state once the module has been loaded on [bare_host], with
    nothing written yet. *)
Definition loaded : state :=
  {| g_MESSAGES := MESSAGES; g_has_mbuild := Some false; g_mbuild := None;
     sys_stdout := ""; sys_stderr := "" |}.

(** ** The message in the words of the specification

    "The template with [{filename}] replaced by the base name and
    [{line_number}] replaced by the line number": one pass from left to
    right that replaces every occurrence of either placeholder. *)

Module Placeholder.

Fixpoint replace_go (base line : string) (skip : nat) (s : string) : string :=
  match s with
  | "" => ""
  | String c s' =>
      match skip with
      | S k => replace_go base line k s'
      | O =>
          if Str.startswith s "{filename}"
          then base +:+ replace_go base line 9 s'
          else if Str.startswith s "{line_number}"
          then line +:+ replace_go base line 12 s'
          else String c (replace_go base line O s')
      end
  end.

Definition replace (base line template : string) : string :=
  replace_go base line O template.

End Placeholder.

(** The generic text of the specification for a module without a hint. *)
Definition generic_message (base line module : string) : string :=
  "The code at " +:+ base +:+ ":" +:+ line +:+ " requires the "
    +:+ module +:+ " package".

(** ** Auxiliary definitions for the statements *)

(** The keyword arguments of the call of [format] for a caller. *)
Definition format_kwargs (h : Host) (caller : FrameInfo) : Fmt.kwargs :=
  [ ("filename", basename h (filename caller));
    ("line_number", Str.of_int (line_number caller)) ].

(** The four lines [import_] prints around a message [m]. *)
Definition block (m : string) (width : nat) : string :=
  LF +:+ bar_of width +:+ LF +:+ m +:+ LF +:+ bar_of width +:+ LF.

Definition write_stderr (s : string) (st1 : state) : state :=
  {| g_MESSAGES := g_MESSAGES st1; g_has_mbuild := g_has_mbuild st1;
     g_mbuild := g_mbuild st1; sys_stdout := sys_stdout st1;
     sys_stderr := sys_stderr st1 +:+ s |}.

(** The state once the module body has built the table. *)
Definition with_table (st : state) : state :=
  {| g_MESSAGES := MESSAGES; g_has_mbuild := g_has_mbuild st;
     g_mbuild := g_mbuild st; sys_stdout := sys_stdout st;
     sys_stderr := sys_stderr st |}.

Definition probed (b : bool) (st1 : state) : state :=
  {| g_MESSAGES := g_MESSAGES st1; g_has_mbuild := Some b;
     g_mbuild := (if b then None else g_mbuild st1);
     sys_stdout := sys_stdout st1; sys_stderr := sys_stderr st1 |}.

(** A state before the module is loaded: no global bound, nothing written. *)
Definition unloaded : state :=
  {| g_MESSAGES := ∅; g_has_mbuild := None; g_mbuild := None;
     sys_stdout := ""; sys_stderr := "" |}.

(** A host on which [mbuild] is installed. *)
Definition mbuild_host : Host :=
  {| import_module := fun name =>
       if String.eqb name "mbuild"
       then ret {| module_name := "mbuild"; module_id := 7 |}
       else raise (no_such_module name);
     getouterframes := sample_frames; os := posix;
     basename := posix_basename |}.

(** [bare_host] on Windows: [os.linesep] is a carriage return and a
    newline, while the newlines of the templates are plain newlines.
    The sample path has the same base name under [ntpath]. *)
Definition nt_host : Host :=
  {| import_module := bare_loader; getouterframes := sample_frames;
     os := nt; basename := posix_basename |}.

(** [bare_host] when [import_] has no calling frame. *)
Definition top_host : Host :=
  {| import_module := bare_loader; getouterframes := take 1 sample_frames;
     os := posix; basename := posix_basename |}.

(** A loader for an environment in which [numpy] is installed and the
    package [broken] is installed but fails while its code runs. *)
Definition broken_loader (name : string) : py module_object :=
  if String.eqb name "numpy"
  then ret {| module_name := "numpy"; module_id := 1 |}
  else if String.eqb name "broken"
  then raise (mk_exn SyntaxError "invalid syntax")
  else raise (no_such_module name).

Definition broken_host : Host :=
  {| import_module := broken_loader; getouterframes := sample_frames;
     os := posix; basename := posix_basename |}.

(** The state [loaded] after one failed [import_("gmso")] on [bare_host]. *)
Definition reported_once : state :=
  write_stderr (block (Placeholder.replace "run.py" "12" gmso_template) 49)
    loaded.

(** A host on which [mbuild] is installed but fails while its code runs. *)
Definition faulty_mbuild_host : Host :=
  {| import_module := fun name =>
       if String.eqb name "mbuild"
       then raise (mk_exn SyntaxError "invalid syntax")
       else raise (no_such_module name);
     getouterframes := sample_frames; os := posix;
     basename := posix_basename |}.

(** ** Shapes of texts, for the statements about the message *)

(** [c not in s] *)
Fixpoint lacks (c : ascii) (s : string) : bool :=
  match s with
  | "" => true
  | String x s' => negb (Ascii.eqb x c) && lacks c s'
  end.

(** A line that is empty or starts with a character other than a blank
    or a tab. *)
Definition flush (l : string) : bool :=
  match l with
  | "" => true
  | String c _ => negb (Textwrap.is_blank c)
  end.

(** Every line of the text is [flush]; [at_start] tells whether the text
    starts at the beginning of a line. *)
Fixpoint all_flush (at_start : bool) (s : string) : bool :=
  match s with
  | "" => true
  | String c s' =>
      negb (at_start && Textwrap.is_blank c)
      && all_flush (Ascii.eqb c "010") s'
  end.

(** Whether the text that follows [a] starts a line. *)
Fixpoint ends_line (at_start : bool) (a : string) : bool :=
  match a with
  | "" => at_start
  | String c a' => ends_line (Ascii.eqb c "010") a'
  end.

(** ** A module that calls [import_] while it is loaded *)

(** The interpreter on which a module [outer] is installed whose code
    calls [import_(inner)] at top level and does nothing else to the
    state.  [h] is the interpreter as that inner call sees it (its call
    stack starts in the code of [outer]); [frames] is the call stack of
    an [import_(outer)], and [obj] the module object of [outer]. *)
Definition wrapping_host (h : Host) (outer inner : string)
    (obj : module_object) (frames : list FrameInfo) : Host :=
  {| import_module := fun name =>
       if String.eqb name outer
       then (import_ h inner ;; ret obj)
       else import_module h name;
     getouterframes := frames; os := os h; basename := basename h |}.

(** The call stack of [import_("gmso")] in the first line of a package
    [plugin] that is itself being imported. *)
Definition plugin_frames : list FrameInfo :=
  [ {| frame := 3; filename := "/site-packages/foyer/utils/io.py";
       line_number := 87; function_name := "import_";
       lines := None; index := None |};
    {| frame := 2; filename := "/site-packages/plugin/__init__.py";
       line_number := 1; function_name := "<module>";
       lines := None; index := None |} ].

Definition plugin_host : Host :=
  {| import_module := bare_loader; getouterframes := plugin_frames;
     os := posix; basename := posix_basename |}.

Definition plugin_object : module_object :=
  {| module_name := "plugin"; module_id := 9 |}.

(** * Properties *)

(** ** Sample evaluations of the library models *)

Example split_lines :
  Str.split ("ab" +:+ LF +:+ LF +:+ "c") LF = Some ["ab"; ""; "c"].
Proof. reflexivity. Qed.

Example split_crlf :
  Str.split ("ab" +:+ CR +:+ LF +:+ "c" +:+ LF +:+ "d") (CR +:+ LF)
  = Some ["ab"; "c" +:+ LF +:+ "d"].
Proof. reflexivity. Qed.

Example of_int_12 : Str.of_int 12 = "12".
Proof. reflexivity. Qed.

Example format_plain :
  Fmt.format "at {f}:{n} {{x}}" [("f", "a.py"); ("n", "3")]
  = Return "at a.py:3 {x}".
Proof. reflexivity. Qed.

Example format_missing_key :
  Fmt.format "at {f}:{n}" [("f", "a.py")] = Raise (mk_exn KeyError "'n'").
Proof. reflexivity. Qed.

Example format_positional :
  Fmt.format "at {}" [("f", "a.py")] =
  Raise (mk_exn IndexError
           "Replacement index 0 out of range for positional args tuple").
Proof. reflexivity. Qed.

Example format_single_brace :
  Fmt.format "a } b" [] =
  Raise (mk_exn ValueError "Single '}' encountered in format string").
Proof. reflexivity. Qed.

Example dedent_common_margin :
  Textwrap.dedent ("  a" +:+ LF +:+ "    b" +:+ LF +:+ "   " +:+ LF +:+ "  c")
  = "a" +:+ LF +:+ "  b" +:+ LF +:+ LF +:+ "c".
Proof. reflexivity. Qed.

Example dedent_no_margin :
  Textwrap.dedent (LF +:+ "a" +:+ LF +:+ "  b" +:+ LF)
  = LF +:+ "a" +:+ LF +:+ "  b" +:+ LF.
Proof. reflexivity. Qed.

Example basename_path : posix_basename "/home/u/proj/run.py" = "run.py".
Proof. reflexivity. Qed.

Example basename_bare : posix_basename "run.py" = "run.py".
Proof. reflexivity. Qed.

Example replace_both :
  Placeholder.replace "a.py" "3" "at {filename}:{line_number}." = "at a.py:3.".
Proof. reflexivity. Qed.

(** ** Strings *)

Lemma append_assoc (a b c : string) : (a +:+ b) +:+ c = a +:+ b +:+ c.
Proof.
  induction a as [|x a IH]; [reflexivity|].
  change (String x ((a +:+ b) +:+ c) = String x (a +:+ b +:+ c)).
  now rewrite IH.
Qed.

Lemma append_cons (x : ascii) (a b : string) :
  String x a +:+ b = String x (a +:+ b).
Proof. reflexivity. Qed.

Lemma append_empty_l (a : string) : "" +:+ a = a.
Proof. reflexivity. Qed.

Lemma split_go_nonempty c0 sep' skip s : Str.split_go c0 sep' skip s <> [].
Proof.
  revert skip. induction s as [|c s IH]; intros skip; [discriminate|].
  destruct skip as [|k]; cbn [Str.split_go].
  - destruct (Ascii.eqb c c0 && Str.startswith s sep'); [discriminate|].
    specialize (IH O). destruct (Str.split_go c0 sep' O s); [contradiction|discriminate].
  - apply IH.
Qed.

Lemma split_linesep (o : os_name) (m : string) :
  exists p ps, Str.split m (linesep o) = Some (p :: ps).
Proof.
  destruct o; cbn [linesep].
  - change (Str.split m LF) with (Some (Str.split_go "010" "" O m)).
    pose proof (split_go_nonempty "010" "" O m) as H.
    destruct (Str.split_go "010" "" O m) as [|p ps]; [contradiction|eauto].
  - change (Str.split m (CR +:+ LF)) with (Some (Str.split_go "013" LF O m)).
    pose proof (split_go_nonempty "013" LF O m) as H.
    destruct (Str.split_go "013" LF O m) as [|p ps]; [contradiction|eauto].
Qed.

(** [foldl Nat.max] gives a bound that some element reaches. *)
Lemma foldl_max_bound (xs : list nat) (x : nat) :
  Forall (fun y => y <= foldl Nat.max x xs) (x :: xs)
  /\ Exists (fun y => y = foldl Nat.max x xs) (x :: xs).
Proof.
  revert x. induction xs as [|y ys IH]; intros x; cbn [foldl].
  - split; [constructor; [lia|constructor] | constructor; reflexivity].
  - destruct (IH (Nat.max x y)) as [Hall Hex].
    apply Forall_cons in Hall as [Hm Hall].
    split.
    + constructor; [lia|]. constructor; [lia|assumption].
    + apply Exists_cons in Hex as [Heq|Hex].
      * destruct (Nat.max_spec x y) as [[_ E]|[_ E]].
        -- apply Exists_cons_tl, Exists_cons_hd; congruence.
        -- apply Exists_cons_hd; congruence.
      * apply Exists_cons_tl, Exists_cons_tl; exact Hex.
Qed.

Lemma py_max_longest (xs : list nat) (n : nat) :
  py_max xs = Some n ->
  Forall (fun y => y <= n) xs /\ Exists (fun y => y = n) xs.
Proof.
  destruct xs as [|x xs]; [discriminate|].
  intros [= <-]. apply foldl_max_bound.
Qed.

Lemma startswith_empty (s : string) : Str.startswith s "" = true.
Proof. destruct s; reflexivity. Qed.

Lemma lines_newline (s : string) :
  Textwrap.lines (String "010" s) = "" :: Textwrap.lines s.
Proof.
  unfold Textwrap.lines. cbn [Str.split_go].
  rewrite startswith_empty. reflexivity.
Qed.


(** ** The runs of [import_] *)

Section Runs.

Variable h : Host.
Variable module : string.
Variable st : state.

Lemma import_returns obj st1 :
  import_module h module st = (Return obj, st1) ->
  import_ h module st = (Return obj, st1).
Proof. intros H. unfold import_, try_except. now rewrite H. Qed.

Lemma import_unsupported st1 :
  import_module h module st = (Unsupported, st1) ->
  import_ h module st = (Unsupported, st1).
Proof. intros H. unfold import_, try_except. now rewrite H. Qed.

Lemma import_propagates e st1 :
  import_module h module st = (Raise e, st1) ->
  isinstance e ImportError = false ->
  import_ h module st = (Raise e, st1).
Proof. intros H Hi. unfold import_, try_except. now rewrite H, Hi. Qed.

Lemma import_unregistered e st1 :
  import_module h module st = (Raise e, st1) ->
  isinstance e ImportError = true ->
  g_MESSAGES st1 !! module = None ->
  import_ h module st
  = (Raise (mk_exn ImportError ("No module named " +:+ module)), st1).
Proof.
  intros H Hi Hk. unfold import_, try_except at 1. rewrite H, Hi.
  unfold bind, try_except, MESSAGES_getitem. rewrite Hk. reflexivity.
Qed.

Lemma import_no_caller e st1 template :
  import_module h module st = (Raise e, st1) ->
  isinstance e ImportError = true ->
  g_MESSAGES st1 !! module = Some template ->
  getouterframes h !! 1 = None ->
  import_ h module st
  = (Raise (mk_exn IndexError "list index out of range"), st1).
Proof.
  intros H Hi Hk Hc. unfold import_, try_except at 1. rewrite H, Hi.
  unfold bind, try_except, MESSAGES_getitem, list_getitem.
  rewrite Hk, Hc. reflexivity.
Qed.

Lemma import_format_fails e st1 template caller :
  import_module h module st = (Raise e, st1) ->
  isinstance e ImportError = true ->
  g_MESSAGES st1 !! module = Some template ->
  getouterframes h !! 1 = Some caller ->
  (forall m0, Fmt.format template (format_kwargs h caller) <> Return m0) ->
  exists o, (forall obj, o <> Return obj)
    /\ import_ h module st = (o, st1).
Proof.
  intros H Hi Hk Hc Hf. unfold import_, try_except at 1. rewrite H, Hi.
  unfold bind, try_except, MESSAGES_getitem, list_getitem, lift.
  rewrite Hk, Hc. cbn [ret].
  fold (format_kwargs h caller).
  destruct (Fmt.format template (format_kwargs h caller)) as [m0| e' |].
  - now destruct (Hf m0).
  - exists (Raise e'). split; [discriminate|reflexivity].
  - exists Unsupported. split; [discriminate|reflexivity].
Qed.

Lemma import_registered e st1 template caller m0 :
  import_module h module st = (Raise e, st1) ->
  isinstance e ImportError = true ->
  g_MESSAGES st1 !! module = Some template ->
  getouterframes h !! 1 = Some caller ->
  Fmt.format template (format_kwargs h caller) = Return m0 ->
  exists pieces width,
    Str.split (Textwrap.dedent m0) (linesep (os h)) = Some pieces
    /\ py_max (map String.length pieces) = Some width
    /\ import_ h module st
       = (Raise (mk_exn DelayImportError (Textwrap.dedent m0)),
          write_stderr (block (Textwrap.dedent m0) width) st1).
Proof.
  intros H Hi Hk Hc Hf.
  destruct (split_linesep (os h) (Textwrap.dedent m0)) as (p & ps & Hs).
  exists (p :: ps), (foldl Nat.max (String.length p) (map String.length ps)).
  split; [exact Hs|]. split; [reflexivity|].
  unfold import_, try_except at 1. rewrite H, Hi.
  unfold bind, try_except, MESSAGES_getitem, list_getitem, lift.
  rewrite Hk, Hc. cbn [ret]. fold (format_kwargs h caller). rewrite Hf.
  unfold str_split. rewrite Hs. cbn [ret map max_ py_max].
  unfold print, raise, write_stderr, block.
  cbn [g_MESSAGES g_has_mbuild g_mbuild sys_stdout sys_stderr].
  do 2 f_equal. rewrite !append_assoc. reflexivity.
Qed.

End Runs.

(** Every run of [import_] either leaves the state as the loader left it
    or is the run that prints the block and raises [DelayImportError]. *)
Lemma import_inv h module st o1 st1 o st' :
  import_module h module st = (o1, st1) ->
  import_ h module st = (o, st') ->
  st' = st1
  \/ exists e template caller m0 pieces width,
       o1 = Raise e
       /\ isinstance e ImportError = true
       /\ g_MESSAGES st1 !! module = Some template
       /\ getouterframes h !! 1 = Some caller
       /\ Fmt.format template (format_kwargs h caller) = Return m0
       /\ Str.split (Textwrap.dedent m0) (linesep (os h)) = Some pieces
       /\ py_max (map String.length pieces) = Some width
       /\ o = Raise (mk_exn DelayImportError (Textwrap.dedent m0))
       /\ st' = write_stderr (block (Textwrap.dedent m0) width) st1.
Proof.
  intros H1 H.
  destruct o1 as [obj|e|].
  - rewrite (import_returns _ _ _ _ _ H1) in H. left. congruence.
  - destruct (isinstance e ImportError) eqn:Hi.
    2:{ rewrite (import_propagates _ _ _ _ _ H1 Hi) in H. left. congruence. }
    destruct (g_MESSAGES st1 !! module) as [template|] eqn:Hk.
    2:{ rewrite (import_unregistered _ _ _ _ _ H1 Hi Hk) in H.
        left. congruence. }
    destruct (getouterframes h !! 1) as [caller|] eqn:Hc.
    2:{ rewrite (import_no_caller _ _ _ _ _ _ H1 Hi Hk Hc) in H.
        left. congruence. }
    destruct (Fmt.format template (format_kwargs h caller)) as [m0|e'|] eqn:Hf.
    + destruct (import_registered _ _ _ _ _ _ _ _ H1 Hi Hk Hc Hf)
        as (pieces & width & Hs & Hm & Hrun).
      rewrite Hrun in H. right.
      exists e, template, caller, m0, pieces, width.
      repeat split; try assumption; congruence.
    + destruct (import_format_fails h module st e st1 template caller H1 Hi Hk Hc)
        as (o' & _ & Hrun); [intros m0; rewrite Hf; discriminate|].
      rewrite Hrun in H. left. congruence.
    + destruct (import_format_fails h module st e st1 template caller H1 Hi Hk Hc)
        as (o' & _ & Hrun); [intros m0; rewrite Hf; discriminate|].
      rewrite Hrun in H. left. congruence.
  - rewrite (import_unsupported _ _ _ _ H1) in H. left. congruence.
Qed.

(** ** Success *)

(** C3. When the loader returns a module object, [import_] returns that
    same object and leaves the state exactly as the loader left it: the
    call adds nothing to the error stream, nothing to the normal output
    stream, and raises nothing. *)
Theorem import_success h module st obj st1 :
  import_module h module st = (Return obj, st1) ->
  import_ h module st = (Return obj, st1)
  /\ sys_stderr (snd (import_ h module st)) = sys_stderr st1
  /\ sys_stdout (snd (import_ h module st)) = sys_stdout st1.
Proof.
  intros H. rewrite (import_returns _ _ _ _ _ H). auto.
Qed.

Lemma import_success_witness :
  import_ bare_host "numpy" loaded
  = (Return {| module_name := "numpy"; module_id := 1 |}, loaded)
  /\ sys_stderr (snd (import_ bare_host "numpy" loaded)) = sys_stderr loaded
  /\ sys_stdout (snd (import_ bare_host "numpy" loaded)) = sys_stdout loaded.
Proof.
  apply (import_success bare_host "numpy" loaded). reflexivity.
Defined.

(** ** The module without a hint *)

(** C10. When the loader fails with an import error and the module name
    is not a key of [MESSAGES], [import_] raises a plain [ImportError]
    (not a skip signal) whose text is "No module named " followed by the
    module name, and leaves the state as the loader left it: nothing is
    written to either stream.  The fallback template plays no part in the
    result, and neither do the call stack, [os.linesep] and
    [os.path.basename]: any host with the same loader gives the same run. *)
Theorem missing_hint_raises_plain_ImportError h module st e st1 :
  import_module h module st = (Raise e, st1) ->
  isinstance e ImportError = true ->
  g_MESSAGES st1 !! module = None ->
  let raised := mk_exn ImportError ("No module named " +:+ module) in
  import_ h module st = (Raise raised, st1)
  /\ exn_type raised = ImportError
  /\ isinstance raised SkipTest = false
  /\ sys_stderr (snd (import_ h module st)) = sys_stderr st1
  /\ sys_stdout (snd (import_ h module st)) = sys_stdout st1
  /\ forall frames o base,
       import_ {| import_module := import_module h; getouterframes := frames;
                  os := o; basename := base |} module st
       = (Raise raised, st1).
Proof.
  intros H Hi Hk raised.
  rewrite (import_unregistered _ _ _ _ _ H Hi Hk).
  repeat split.
  intros frames o base.
  now apply (import_unregistered _ _ _ e).
Qed.

Lemma missing_hint_raises_plain_ImportError_witness :
  import_ bare_host "foobar" loaded
  = (Raise (mk_exn ImportError "No module named foobar"), loaded).
Proof.
  apply (missing_hint_raises_plain_ImportError bare_host "foobar" loaded
           (no_such_module "foobar") loaded);
    [reflexivity | reflexivity | vm_compute; reflexivity].
Defined.

(** ** The separator bar *)

Lemma length_repeat (c : ascii) (n : nat) : String.length (Str.repeat c n) = n.
Proof. induction n as [|n IH]; cbn; [reflexivity|now rewrite IH]. Qed.

(** What the code computes on every host.  Whenever a call of [import_]
    adds anything to the error stream, what it adds is the block around
    the formatted message [m] (the template of the module, interpolated,
    then dedented), and the bar of that block is the bright-red escape
    code, a row of [#], and the reset code, where the number of [#] is the
    length of the longest piece of [m.split(os.linesep)].  These pieces
    are the lines of [m] only where [os.linesep] is the newline. *)
Lemma bar_spans_longest_line h module st o1 st1 o st' :
  import_module h module st = (o1, st1) ->
  import_ h module st = (o, st') ->
  sys_stderr st' <> sys_stderr st1 ->
  exists template caller m0 pieces width,
    g_MESSAGES st1 !! module = Some template
    /\ getouterframes h !! 1 = Some caller
    /\ Fmt.format template (format_kwargs h caller) = Return m0
    /\ Str.split (Textwrap.dedent m0) (linesep (os h)) = Some pieces
    /\ (os h = posix -> pieces = Textwrap.lines (Textwrap.dedent m0))
    /\ Forall (fun line => String.length line <= width) pieces
    /\ Exists (fun line => String.length line = width) pieces
    /\ String.length (Str.repeat "#" width) = width
    /\ let bar := ESC +:+ "[91m" +:+ Str.repeat "#" width +:+ ESC +:+ "[0m" in
       sys_stderr st'
       = sys_stderr st1 +:+ LF +:+ bar +:+ LF
           +:+ Textwrap.dedent m0 +:+ LF +:+ bar +:+ LF.
Proof.
  intros H1 H Hw.
  destruct (import_inv _ _ _ _ _ _ _ H1 H)
    as [-> | (e & template & caller & m0 & pieces & width & _ & _ & Hk & Hc
              & Hf & Hs & Hm & _ & ->)]; [contradiction|].
  exists template, caller, m0, pieces, width.
  destruct (py_max_longest _ _ Hm) as [Hall Hex].
  repeat split; try assumption.
  - intros Hos. rewrite Hos in Hs.
    change (Some (Textwrap.lines (Textwrap.dedent m0)) = Some pieces) in Hs.
    congruence.
  - clear -Hall. induction pieces as [|p ps IH]; [constructor|].
    cbn [map] in Hall. apply Forall_cons in Hall as [Hp Hall].
    constructor; auto.
  - clear -Hex. induction pieces as [|p ps IH]; [inversion Hex|].
    cbn [map] in Hex. apply Exists_cons in Hex as [Hp|Hex];
      [apply Exists_cons_hd; exact Hp | apply Exists_cons_tl; auto].
  - apply length_repeat.
Qed.

Lemma bar_spans_longest_line_witness :
  exists template caller m0 pieces width,
    g_MESSAGES loaded !! "gmso" = Some template
    /\ getouterframes bare_host !! 1 = Some caller
    /\ Fmt.format template (format_kwargs bare_host caller) = Return m0
    /\ Str.split (Textwrap.dedent m0) (linesep (os bare_host)) = Some pieces
    /\ (os bare_host = posix -> pieces = Textwrap.lines (Textwrap.dedent m0))
    /\ Forall (fun line => String.length line <= width) pieces
    /\ Exists (fun line => String.length line = width) pieces
    /\ String.length (Str.repeat "#" width) = width
    /\ let bar := ESC +:+ "[91m" +:+ Str.repeat "#" width +:+ ESC +:+ "[0m" in
       sys_stderr (snd (import_ bare_host "gmso" loaded))
       = sys_stderr loaded +:+ LF +:+ bar +:+ LF
           +:+ Textwrap.dedent m0 +:+ LF +:+ bar +:+ LF.
Proof.
  apply (bar_spans_longest_line bare_host "gmso" loaded
           (Raise (no_such_module "gmso")) loaded
           (fst (import_ bare_host "gmso" loaded))).
  - reflexivity.
  - vm_compute. reflexivity.
  - vm_compute. discriminate.
Defined.

Example bar_of_gmso :
  sys_stderr (snd (import_ bare_host "gmso" loaded))
  = let bar := ESC +:+ "[91m" +:+ Str.repeat "#" 49 +:+ ESC +:+ "[0m" in
    text_of_lines
      [ ""; bar; ""; "";
        "The code at run.py:12 requires the " +:+ DQ +:+ "gmso" +:+ DQ
          +:+ " package";
        ""; "gmso can be installed using:"; "";
        "# conda install -c conda-forge gmso"; "";
        bar ].
Proof. vm_compute. reflexivity. Qed.

(** On a host whose [os.linesep] is not the newline of the templates the
    message is one single piece, and the bar is as long as all of it. *)
Example bar_of_gmso_nt :
  let m := Textwrap.dedent (Placeholder.replace "run.py" "12" gmso_template) in
  Str.split m (linesep nt) = Some [m]
  /\ String.length m = 119
  /\ sys_stderr (snd (import_ nt_host "gmso" loaded))
     = LF +:+ bar_of 119 +:+ LF +:+ m +:+ LF +:+ bar_of 119 +:+ LF.
Proof. vm_compute. repeat split. Qed.

(** C4. On a host whose [os.linesep] is a carriage return and a newline,
    the failed import of [gmso] from line 12 of [run.py] prints a block
    whose bar has 119 [#], the length of the whole message, while the
    longest line of the message has 49 characters.  The message is given
    line by line; its lines end with the plain newline of the templates,
    so [m.split(os.linesep)] does not cut it. *)
Theorem bar_exceeds_longest_line_on_nt :
  let m :=
    text_of_lines
      [ ""; "";
        "The code at run.py:12 requires the " +:+ DQ +:+ "gmso" +:+ DQ
          +:+ " package";
        ""; "gmso can be installed using:"; "";
        "# conda install -c conda-forge gmso" ] in
  let bar := ESC +:+ "[91m" +:+ Str.repeat "#" 119 +:+ ESC +:+ "[0m" in
  import_ nt_host "gmso" loaded
  = (Raise (mk_exn DelayImportError m),
     write_stderr (LF +:+ bar +:+ LF +:+ m +:+ LF +:+ bar +:+ LF) loaded)
  /\ String.length (Str.repeat "#" 119) = 119
  /\ String.length m = 119
  /\ Str.join LF (Textwrap.lines m) = m
  /\ Forall (fun line => lacks "010" line = true /\ String.length line <= 49)
       (Textwrap.lines m)
  /\ Exists (fun line => String.length line = 49) (Textwrap.lines m)
  /\ sys_stderr (snd (import_ bare_host "gmso" loaded))
     = (let bar := ESC +:+ "[91m" +:+ Str.repeat "#" 49 +:+ ESC +:+ "[0m" in
        LF +:+ bar +:+ LF +:+ m +:+ LF +:+ bar +:+ LF).
Proof.
  cbv zeta.
  split; [vm_compute; reflexivity|].
  split; [vm_compute; reflexivity|].
  split; [vm_compute; reflexivity|].
  split; [vm_compute; reflexivity|].
  split.
  - vm_compute. repeat constructor.
  - split; [|vm_compute; reflexivity].
    vm_compute. do 2 apply Exists_cons_tl. apply Exists_cons_hd. reflexivity.
Qed.

(** Without a calling frame the index [1] is out of range, and nothing is
    written. *)
Example no_calling_frame :
  import_ top_host "gmso" loaded
  = (Raise (mk_exn IndexError "list index out of range"), loaded).
Proof. vm_compute. reflexivity. Qed.

(** ** The hint table *)

Lemma MESSAGES_keys (module template : string) :
  MESSAGES !! module = Some template ->
  (module = "mbuild" /\ template = mbuild_template)
  \/ (module = "gmso" /\ template = gmso_template)
  \/ (module = "openff.toolkit" /\ template = openff_template).
Proof.
  unfold MESSAGES. intros H.
  apply lookup_insert_Some in H as [[<- <-]|[_ H]]; [auto|].
  apply lookup_insert_Some in H as [[<- <-]|[_ H]]; [auto|].
  apply lookup_insert_Some in H as [[<- <-]|[_ H]]; [auto|].
  now rewrite lookup_empty in H.
Qed.

(** C8. A call of [import_] leaves [MESSAGES] as the loader left it,
    whatever the outcome: no entry is added, removed or changed.  The
    table the module builds has three entries under three distinct keys.
    When the module name is not a key, the [KeyError] of the lookup never
    reaches the caller: a [KeyError] leaves [import_] only if it is the
    very error the loader raised. *)
Theorem MESSAGES_read_only h module st o1 st1 o st' :
  import_module h module st = (o1, st1) ->
  import_ h module st = (o, st') ->
  g_MESSAGES st' = g_MESSAGES st1
  /\ (size MESSAGES = 3
      /\ NoDup (map fst (map_to_list MESSAGES))
      /\ dom MESSAGES = ({["mbuild"; "gmso"; "openff.toolkit"]} : gset string))
  /\ (g_MESSAGES st1 !! module = None ->
      forall e, o = Raise e -> isinstance e KeyError = true -> o1 = Raise e).
Proof.
  intros H1 H. split; [|split].
  - destruct (import_inv _ _ _ _ _ _ _ H1 H)
      as [-> | (? & ? & ? & ? & ? & ? & _ & _ & _ & _ & _ & _ & _ & _ & ->)];
      reflexivity.
  - split; [|split].
    + unfold MESSAGES.
      rewrite !map_size_insert_None, map_size_empty; [reflexivity|..];
        repeat (rewrite lookup_insert_ne by discriminate);
        apply lookup_empty.
    + apply NoDup_fst_map_to_list.
    + unfold MESSAGES. rewrite !dom_insert_L, dom_empty_L. set_solver.
  - intros Hk e -> He.
    destruct o1 as [obj|e1|].
    + rewrite (import_returns _ _ _ _ _ H1) in H. discriminate.
    + destruct (isinstance e1 ImportError) eqn:Hi.
      * rewrite (import_unregistered _ _ _ _ _ H1 Hi Hk) in H.
        injection H as <- _. discriminate.
      * rewrite (import_propagates _ _ _ _ _ H1 Hi) in H. congruence.
    + rewrite (import_unsupported _ _ _ _ H1) in H. discriminate.
Qed.

Lemma MESSAGES_read_only_witness :
  g_MESSAGES (snd (import_ bare_host "foobar" loaded)) = g_MESSAGES loaded
  /\ (size MESSAGES = 3
      /\ NoDup (map fst (map_to_list MESSAGES))
      /\ dom MESSAGES = ({["mbuild"; "gmso"; "openff.toolkit"]} : gset string))
  /\ (g_MESSAGES loaded !! "foobar" = None ->
      forall e, fst (import_ bare_host "foobar" loaded) = Raise e ->
        isinstance e KeyError = true ->
        @Raise module_object (no_such_module "foobar") = Raise e).
Proof.
  apply (MESSAGES_read_only bare_host "foobar" loaded
           (Raise (no_such_module "foobar")) loaded
           (fst (import_ bare_host "foobar" loaded))).
  - reflexivity.
  - vm_compute. reflexivity.
Defined.

(** ** The module with a hint *)

(** On the three templates [str.format] is the replacement of the two
    placeholders, whatever the base name and the line number are. *)
Lemma format_registered h caller module template :
  MESSAGES !! module = Some template ->
  Fmt.format template (format_kwargs h caller)
  = Return (Placeholder.replace (basename h (filename caller))
              (Str.of_int (line_number caller)) template).
Proof.
  intros H. unfold format_kwargs.
  generalize (basename h (filename caller)) as base.
  generalize (Str.of_int (line_number caller)) as line.
  intros line base.
  destruct (MESSAGES_keys _ _ H) as [[_ ->]|[[_ ->]|[_ ->]]];
    vm_compute; reflexivity.
Qed.




Example message_of_mbuild :
  fst (import_ bare_host "mbuild" loaded)
  = Raise (mk_exn DelayImportError
      (text_of_lines
         [ ""; "";
           "The code at run.py:12 requires the " +:+ DQ +:+ "mbuild" +:+ DQ
             +:+ " package";
           ""; "mbuild can be installed using:"; "";
           "# conda install -c conda-forge mbuild"; "" ])).
Proof. vm_compute. reflexivity. Qed.

(** ** The probe for [mbuild] at module load *)

Lemma module_body_run h st o1 st1 :
  import_module h "mbuild" (with_table st) = (o1, st1) ->
  module_body h st
  = match o1 with
    | Return _ => (Return tt, probed true st1)
    | Raise e =>
        if isinstance e ImportError then (Return tt, probed false st1)
        else (Raise e, st1)
    | Unsupported => (Unsupported, st1)
    end.
Proof.
  intros H.
  unfold module_body, bind at 1 2 3 4, MESSAGES_new, MESSAGES_setitem.
  cbn [g_MESSAGES g_has_mbuild g_mbuild sys_stdout sys_stderr].
  fold MESSAGES. fold (with_table st).
  unfold try_except, bind at 1. rewrite H.
  destruct o1 as [m|e|]; [reflexivity| |reflexivity].
  destruct (isinstance e ImportError); reflexivity.
Qed.

(** C7. Loading the module computes [has_mbuild]: it is [True] exactly
    when importing [mbuild] succeeds and [False] when that import raises
    an import error.  After a successful import the name [mbuild] is not
    bound (the module object is discarded); after a failed one the code
    has not bound it either. *)
Theorem has_mbuild_flag h st o1 st1 o st' :
  import_module h "mbuild" (with_table st) = (o1, st1) ->
  module_body h st = (o, st') ->
  ((exists m, o1 = Return m)
     <-> (o = Return tt /\ g_has_mbuild st' = Some true))
  /\ (forall m, o1 = Return m ->
        o = Return tt /\ g_has_mbuild st' = Some true /\ g_mbuild st' = None)
  /\ (forall e, o1 = Raise e -> isinstance e ImportError = true ->
        o = Return tt /\ g_has_mbuild st' = Some false
        /\ g_mbuild st' = g_mbuild st1).
Proof.
  intros H1 H. rewrite (module_body_run _ _ _ _ H1) in H.
  destruct o1 as [m|e|].
  - apply pair_equal_spec in H as [<- <-]. cbn [probed g_has_mbuild g_mbuild].
    split; [|split].
    + split; [auto | eauto].
    + auto.
    + intros e [=].
  - destruct (isinstance e ImportError) eqn:Hi;
      apply pair_equal_spec in H as [<- <-];
      cbn [probed g_has_mbuild g_mbuild].
    + split; [|split].
      * split; [intros [m [=]] | intros [_ [=]]].
      * intros m [=].
      * auto.
    + split; [|split].
      * split; [intros [m [=]] | intros [[=] _]].
      * intros m [=].
      * intros e' [= <-]. congruence.
  - apply pair_equal_spec in H as [<- <-]. split; [|split].
    + split; [intros [m [=]] | intros [[=] _]].
    + intros m [=].
    + intros e [=].
Qed.

Lemma has_mbuild_flag_witness :
  ((exists m, @Raise module_object (no_such_module "mbuild") = Return m)
     <-> (fst (module_body bare_host unloaded) = Return tt
          /\ g_has_mbuild (snd (module_body bare_host unloaded)) = Some true))
  /\ (forall m, @Raise module_object (no_such_module "mbuild") = Return m ->
        fst (module_body bare_host unloaded) = Return tt
        /\ g_has_mbuild (snd (module_body bare_host unloaded)) = Some true
        /\ g_mbuild (snd (module_body bare_host unloaded)) = None)
  /\ (forall e, @Raise module_object (no_such_module "mbuild") = Raise e ->
        isinstance e ImportError = true ->
        fst (module_body bare_host unloaded) = Return tt
        /\ g_has_mbuild (snd (module_body bare_host unloaded)) = Some false
        /\ g_mbuild (snd (module_body bare_host unloaded))
           = g_mbuild (with_table unloaded)).
Proof.
  apply (has_mbuild_flag bare_host unloaded
           (Raise (no_such_module "mbuild")) (with_table unloaded)
           (fst (module_body bare_host unloaded))
           (snd (module_body bare_host unloaded))).
  - reflexivity.
  - vm_compute. reflexivity.
Defined.

Example module_body_bare : module_body bare_host unloaded = (Return tt, loaded).
Proof. vm_compute. reflexivity. Qed.

Example module_body_with_mbuild :
  module_body mbuild_host unloaded
  = (Return tt,
     {| g_MESSAGES := MESSAGES; g_has_mbuild := Some true; g_mbuild := None;
        sys_stdout := ""; sys_stderr := "" |}).
Proof. vm_compute. reflexivity. Qed.

(** ** The early [raise] of the [except KeyError] branch

    The branch builds the fallback template and then raises at once, so
    none of the statements after the inner [try] runs for a module
    without a hint.  The runs below are those of [import_("foobar")] on a
    host where [foobar] is not installed, called from line 12 of
    [run.py]. *)

(** C1. The error raised for the missing module [foobar] passes the
    import-error check but not the skip check, whereas the error raised
    for the missing module [mbuild], a key of [MESSAGES], passes both. *)
Theorem foobar_error_is_no_skip :
  (exists e, fst (import_ bare_host "foobar" loaded) = Raise e
     /\ isinstance e ImportError = true
     /\ isinstance e SkipTest = false)
  /\ (exists e, fst (import_ bare_host "mbuild" loaded) = Raise e
        /\ isinstance e ImportError = true
        /\ isinstance e SkipTest = true).
Proof.
  split; eexists; (split; [vm_compute; reflexivity|]); split; reflexivity.
Qed.

(** C2. The message of the failure for [foobar] is "No module named
    foobar": it is not the generic text "The code at run.py:12 requires
    the foobar package", and that text is not written either. *)
Theorem foobar_message_is_not_generic :
  import_module bare_host "foobar" loaded
  = (Raise (no_such_module "foobar"), loaded)
  /\ MESSAGES !! "foobar" = None
  /\ import_ bare_host "foobar" loaded
     = (Raise (mk_exn ImportError "No module named foobar"), loaded)
  /\ "No module named foobar" <> generic_message "run.py" "12" "foobar"
  /\ sys_stderr loaded = "".
Proof.
  split; [reflexivity|]. split; [vm_compute; reflexivity|].
  split; [vm_compute; reflexivity|]. split; [|reflexivity].
  vm_compute. discriminate.
Qed.

(** C5. The failed import of [foobar] writes nothing to the error
    stream: no blank line, no bar, no message. *)
Theorem foobar_prints_nothing :
  (exists e, import_module bare_host "foobar" loaded = (Raise e, loaded)
     /\ isinstance e ImportError = true)
  /\ sys_stderr (snd (import_ bare_host "foobar" loaded)) = sys_stderr loaded
  /\ sys_stdout (snd (import_ bare_host "foobar" loaded)) = sys_stdout loaded
  /\ forall m width,
       sys_stderr (snd (import_ bare_host "foobar" loaded))
       <> sys_stderr loaded +:+ block m width.
Proof.
  split; [eexists; split; reflexivity|].
  split; [vm_compute; reflexivity|]. split; [vm_compute; reflexivity|].
  intros m width. vm_compute. discriminate.
Qed.

(** C9. The error that leaves [import_] for [foobar] is of class
    [ImportError], not [DelayImportError], and its text is not the
    formatted message (the fallback template interpolated for the caller
    and dedented). *)
Theorem foobar_error_is_not_dual :
  exists e,
    fst (import_ bare_host "foobar" loaded) = Raise e
    /\ exn_type e = ImportError
    /\ exn_type e <> DelayImportError
    /\ Fmt.format (fallback_template "foobar")
         (format_kwargs bare_host
            {| frame := 1; filename := "/home/u/proj/run.py";
               line_number := 12; function_name := "<module>";
               lines := None; index := None |})
       = Return (generic_message "run.py" "12" "foobar")
    /\ exn_str e <> Textwrap.dedent (generic_message "run.py" "12" "foobar").
Proof.
  eexists. split; [vm_compute; reflexivity|].
  split; [reflexivity|]. split; [discriminate|].
  split; [vm_compute; reflexivity|]. vm_compute. discriminate.
Qed.

(** * Further properties of [import_] *)

(** ** What can leave [import_] *)

(** In a state whose table is the one the module built, and with a
    calling frame, a call of [import_] raises nothing but: the error of
    the loader itself when that is not an import error, the plain
    [ImportError] naming the module, or a [DelayImportError].  The
    [KeyError] of the lookup and the errors of [format], [split] and [max]
    never reach the caller, and the run stays inside the embedding unless
    the loader left it. *)
Theorem import_raises_only h module st o1 st1 caller :
  import_module h module st = (o1, st1) ->
  g_MESSAGES st1 = MESSAGES ->
  getouterframes h !! 1 = Some caller ->
  (forall e, fst (import_ h module st) = Raise e ->
     (o1 = Raise e /\ isinstance e ImportError = false)
     \/ (e = mk_exn ImportError ("No module named " +:+ module)
         /\ MESSAGES !! module = None)
     \/ (exn_type e = DelayImportError /\ is_Some (MESSAGES !! module)))
  /\ (fst (import_ h module st) = Unsupported -> o1 = Unsupported).
Proof.
  intros H1 Ht Hc.
  destruct o1 as [obj|e1|].
  - rewrite (import_returns _ _ _ _ _ H1). split; discriminate.
  - destruct (isinstance e1 ImportError) eqn:Hi.
    + destruct (MESSAGES !! module) as [template|] eqn:Hk.
      * assert (Hk1 : g_MESSAGES st1 !! module = Some template)
          by now rewrite Ht.
        destruct (import_registered h module st e1 st1 template caller _
                    H1 Hi Hk1 Hc
                    (format_registered h caller module template Hk))
          as (pieces & width & _ & _ & Hrun).
        rewrite Hrun. cbn [fst]. split; [|discriminate].
        intros e [= <-]. right. right. split; [reflexivity|eauto].
      * assert (Hk1 : g_MESSAGES st1 !! module = None) by now rewrite Ht.
        rewrite (import_unregistered _ _ _ _ _ H1 Hi Hk1). cbn [fst].
        split; [|discriminate].
        intros e [= <-]. right. left. split; reflexivity.
    + rewrite (import_propagates _ _ _ _ _ H1 Hi). cbn [fst].
      split; [|discriminate].
      intros e [= <-]. left. split; [reflexivity|assumption].
  - rewrite (import_unsupported _ _ _ _ H1). cbn [fst].
    split; [discriminate|reflexivity].
Qed.

Lemma import_raises_only_witness :
  (forall e, fst (import_ broken_host "broken" loaded) = Raise e ->
     (@Raise module_object (mk_exn SyntaxError "invalid syntax") = Raise e
      /\ isinstance e ImportError = false)
     \/ (e = mk_exn ImportError ("No module named " +:+ "broken")
         /\ MESSAGES !! "broken" = None)
     \/ (exn_type e = DelayImportError /\ is_Some (MESSAGES !! "broken")))
  /\ (fst (import_ broken_host "broken" loaded) = Unsupported ->
      @Raise module_object (mk_exn SyntaxError "invalid syntax") = Unsupported).
Proof.
  apply (import_raises_only broken_host "broken" loaded
           (Raise (mk_exn SyntaxError "invalid syntax")) loaded
           {| frame := 1; filename := "/home/u/proj/run.py";
              line_number := 12; function_name := "<module>";
              lines := None; index := None |});
    reflexivity.
Defined.

(** A package that is installed but fails with an error other than an
    import error is not reported as missing: its own error comes out. *)
Example broken_package :
  import_ broken_host "broken" loaded
  = (Raise (mk_exn SyntaxError "invalid syntax"), loaded).
Proof. vm_compute. reflexivity. Qed.

(** [import_] returns a module object exactly when the loader does, and
    then it is the loader's object: a failed load is never turned into a
    result. *)
Theorem import_returns_iff_loader_returns h module st o1 st1 obj :
  import_module h module st = (o1, st1) ->
  (fst (import_ h module st) = Return obj <-> o1 = Return obj).
Proof.
  intros H1. split.
  - intros H.
    destruct (import_ h module st) as [o st'] eqn:Hrun. cbn [fst] in H.
    subst o.
    destruct (import_inv _ _ _ _ _ _ _ H1 Hrun)
      as [-> | (e & ? & ? & ? & ? & ? & _ & _ & _ & _ & _ & _ & _ & [=] & _)].
    destruct o1 as [obj1|e1|].
    + rewrite (import_returns _ _ _ _ _ H1) in Hrun. congruence.
    + destruct (isinstance e1 ImportError) eqn:Hi.
      * destruct (g_MESSAGES st1 !! module) as [template|] eqn:Hk.
        -- destruct (getouterframes h !! 1) as [caller|] eqn:Hc.
           ++ destruct (Fmt.format template (format_kwargs h caller))
                as [m0|e'|] eqn:Hf.
              ** destruct (import_registered _ _ _ _ _ _ _ _ H1 Hi Hk Hc Hf)
                   as (? & ? & _ & _ & Hr). congruence.
              ** destruct (import_format_fails h module st e1 st1 template
                             caller H1 Hi Hk Hc) as (o' & Hno & Hr);
                   [intros m0; rewrite Hf; discriminate|].
                 rewrite Hr in Hrun. injection Hrun as ->.
                 now destruct (Hno obj).
              ** destruct (import_format_fails h module st e1 st1 template
                             caller H1 Hi Hk Hc) as (o' & Hno & Hr);
                   [intros m0; rewrite Hf; discriminate|].
                 rewrite Hr in Hrun. injection Hrun as ->.
                 now destruct (Hno obj).
           ++ rewrite (import_no_caller _ _ _ _ _ _ H1 Hi Hk Hc) in Hrun.
              discriminate.
        -- rewrite (import_unregistered _ _ _ _ _ H1 Hi Hk) in Hrun.
           discriminate.
      * rewrite (import_propagates _ _ _ _ _ H1 Hi) in Hrun. discriminate.
    + rewrite (import_unsupported _ _ _ _ H1) in Hrun. discriminate.
  - intros ->. now rewrite (import_returns _ _ _ _ _ H1).
Qed.

Lemma import_returns_iff_loader_returns_witness :
  fst (import_ bare_host "numpy" loaded)
    = Return {| module_name := "numpy"; module_id := 1 |}
  <-> @Return module_object {| module_name := "numpy"; module_id := 1 |}
      = Return {| module_name := "numpy"; module_id := 1 |}.
Proof.
  apply (import_returns_iff_loader_returns bare_host "numpy" loaded
           (Return {| module_name := "numpy"; module_id := 1 |}) loaded).
  reflexivity.
Defined.

(** ** What [import_] changes *)

Lemma append_empty_r (a : string) : a +:+ "" = a.
Proof.
  induction a as [|x a IH]; [reflexivity|].
  rewrite append_cons. now rewrite IH.
Qed.

(** A call of [import_] changes nothing but the error stream, and that
    only by appending: the normal output stream and the globals
    [has_mbuild] and [mbuild] are as the loader left them, and what was
    on the error stream is still there, in front. *)
Theorem import_only_appends_to_stderr h module st o1 st1 :
  import_module h module st = (o1, st1) ->
  sys_stdout (snd (import_ h module st)) = sys_stdout st1
  /\ g_has_mbuild (snd (import_ h module st)) = g_has_mbuild st1
  /\ g_mbuild (snd (import_ h module st)) = g_mbuild st1
  /\ exists written,
       sys_stderr (snd (import_ h module st)) = sys_stderr st1 +:+ written.
Proof.
  intros H1.
  destruct (import_ h module st) as [o st'] eqn:Hrun. cbn [snd].
  destruct (import_inv _ _ _ _ _ _ _ H1 Hrun)
    as [-> | (? & ? & ? & m0 & ? & width & _ & _ & _ & _ & _ & _ & _ & _ & ->)].
  - repeat split. exists "". now rewrite append_empty_r.
  - repeat split. eexists. reflexivity.
Qed.

Lemma import_only_appends_to_stderr_witness :
  sys_stdout (snd (import_ bare_host "gmso" loaded)) = sys_stdout loaded
  /\ g_has_mbuild (snd (import_ bare_host "gmso" loaded)) = g_has_mbuild loaded
  /\ g_mbuild (snd (import_ bare_host "gmso" loaded)) = g_mbuild loaded
  /\ exists written,
       sys_stderr (snd (import_ bare_host "gmso" loaded))
       = sys_stderr loaded +:+ written.
Proof.
  apply (import_only_appends_to_stderr bare_host "gmso" loaded
           (Raise (no_such_module "gmso")) loaded).
  reflexivity.
Defined.

(** ** How a failed import can be caught *)

(** When the loader fails with an import error (with the table as built
    and a calling frame), [import_] always raises, and what it raises is
    caught by [except ImportError] but never by
    [except ModuleNotFoundError], even when the loader's own error was a
    [ModuleNotFoundError]. *)
Theorem import_failure_is_ImportError h module st e st1 caller :
  import_module h module st = (Raise e, st1) ->
  isinstance e ImportError = true ->
  g_MESSAGES st1 = MESSAGES ->
  getouterframes h !! 1 = Some caller ->
  exists e',
    fst (import_ h module st) = Raise e'
    /\ isinstance e' ImportError = true
    /\ isinstance e' ModuleNotFoundError = false.
Proof.
  intros H1 Hi Ht Hc.
  destruct (MESSAGES !! module) as [template|] eqn:Hk.
  - assert (Hk1 : g_MESSAGES st1 !! module = Some template) by now rewrite Ht.
    destruct (import_registered h module st e st1 template caller _
                H1 Hi Hk1 Hc (format_registered h caller module template Hk))
      as (pieces & width & _ & _ & Hrun).
    rewrite Hrun. eexists. repeat split.
  - assert (Hk1 : g_MESSAGES st1 !! module = None) by now rewrite Ht.
    rewrite (import_unregistered _ _ _ _ _ H1 Hi Hk1).
    eexists. repeat split.
Qed.

Lemma import_failure_is_ImportError_witness :
  isinstance (no_such_module "foobar") ModuleNotFoundError = true
  /\ exists e',
       fst (import_ bare_host "foobar" loaded) = Raise e'
       /\ isinstance e' ImportError = true
       /\ isinstance e' ModuleNotFoundError = false.
Proof.
  split; [reflexivity|].
  apply (import_failure_is_ImportError bare_host "foobar" loaded
           (no_such_module "foobar") loaded
           {| frame := 1; filename := "/home/u/proj/run.py";
              line_number := 12; function_name := "<module>";
              lines := None; index := None |});
    reflexivity.
Defined.

(** ** No caching *)

(** Nothing is remembered between calls.  When the loader keeps failing
    with the same import error and leaves the state alone, a second call
    for a module with a hint raises the same error again and appends the
    same non-empty block once more. *)
Theorem repeated_failure_repeats_block h module st e template caller :
  (forall s, import_module h module s = (Raise e, s)) ->
  isinstance e ImportError = true ->
  g_MESSAGES st = MESSAGES ->
  MESSAGES !! module = Some template ->
  getouterframes h !! 1 = Some caller ->
  let first := import_ h module st in
  let second := import_ h module (snd first) in
  fst second = fst first
  /\ exists b,
       b <> ""
       /\ sys_stderr (snd first) = sys_stderr st +:+ b
       /\ sys_stderr (snd second) = sys_stderr st +:+ b +:+ b.
Proof.
  intros Hl Hi Ht Hk Hc first second.
  assert (Hk1 : g_MESSAGES st !! module = Some template) by now rewrite Ht.
  destruct (import_registered h module st e st template caller _
              (Hl st) Hi Hk1 Hc (format_registered h caller module template Hk))
    as (pieces & width & Hs & Hm & Hrun).
  set (m := Textwrap.dedent
              (Placeholder.replace (basename h (filename caller))
                 (Str.of_int (line_number caller)) template)) in *.
  set (st1 := write_stderr (block m width) st) in *.
  assert (Hk2 : g_MESSAGES st1 !! module = Some template) by exact Hk1.
  destruct (import_registered h module st1 e st1 template caller _
              (Hl st1) Hi Hk2 Hc (format_registered h caller module template Hk))
    as (pieces' & width' & Hs' & Hm' & Hrun').
  fold m in Hs', Hrun'.
  assert (width' = width) as -> by congruence.
  subst first second. rewrite Hrun. cbn [fst snd]. fold st1. rewrite Hrun'.
  cbn [fst snd]. split; [reflexivity|].
  exists (block m width). split; [discriminate|]. split; [reflexivity|].
  unfold st1, write_stderr. cbn [sys_stderr]. apply append_assoc.
Qed.

Lemma repeated_failure_repeats_block_witness :
  let first := import_ bare_host "gmso" loaded in
  let second := import_ bare_host "gmso" (snd first) in
  fst second = fst first
  /\ exists b,
       b <> ""
       /\ sys_stderr (snd first) = sys_stderr loaded +:+ b
       /\ sys_stderr (snd second) = sys_stderr loaded +:+ b +:+ b.
Proof.
  apply (repeated_failure_repeats_block bare_host "gmso" loaded
           (no_such_module "gmso") gmso_template
           {| frame := 1; filename := "/home/u/proj/run.py";
              line_number := 12; function_name := "<module>";
              lines := None; index := None |});
    reflexivity.
Defined.

Example first_report : snd (import_ bare_host "gmso" loaded) = reported_once.
Proof. vm_compute. reflexivity. Qed.

(** * Further properties of the module body *)

(** Whatever the import of [mbuild] does, the module body itself writes
    nothing and leaves the table as the loader left it; and when that
    import fails with an error that is not an import error, loading the
    module fails with that very error and [has_mbuild] is not assigned. *)
Theorem module_body_effects h st o1 st1 :
  import_module h "mbuild" (with_table st) = (o1, st1) ->
  g_MESSAGES (snd (module_body h st)) = g_MESSAGES st1
  /\ sys_stdout (snd (module_body h st)) = sys_stdout st1
  /\ sys_stderr (snd (module_body h st)) = sys_stderr st1
  /\ (forall e, o1 = Raise e -> isinstance e ImportError = false ->
        fst (module_body h st) = Raise e
        /\ g_has_mbuild (snd (module_body h st)) = g_has_mbuild st1
        /\ g_mbuild (snd (module_body h st)) = g_mbuild st1).
Proof.
  intros H1. rewrite (module_body_run _ _ _ _ H1).
  destruct o1 as [m|e|].
  - do 3 (split; [reflexivity|]). intros e' [=].
  - destruct (isinstance e ImportError) eqn:Hi.
    + do 3 (split; [reflexivity|]). intros e' [= <-]. congruence.
    + do 3 (split; [reflexivity|]). intros e' [= <-] _.
      repeat split.
  - do 3 (split; [reflexivity|]). intros e' [=].
Qed.

Lemma module_body_effects_witness :
  g_MESSAGES (snd (module_body faulty_mbuild_host unloaded)) = MESSAGES
  /\ sys_stdout (snd (module_body faulty_mbuild_host unloaded)) = ""
  /\ sys_stderr (snd (module_body faulty_mbuild_host unloaded)) = ""
  /\ (forall e,
        @Raise module_object (mk_exn SyntaxError "invalid syntax") = Raise e ->
        isinstance e ImportError = false ->
        fst (module_body faulty_mbuild_host unloaded) = Raise e
        /\ g_has_mbuild (snd (module_body faulty_mbuild_host unloaded)) = None
        /\ g_mbuild (snd (module_body faulty_mbuild_host unloaded)) = None).
Proof.
  apply (module_body_effects faulty_mbuild_host unloaded
           (Raise (mk_exn SyntaxError "invalid syntax")) (with_table unloaded)).
  reflexivity.
Defined.

Example module_body_faulty_mbuild :
  module_body faulty_mbuild_host unloaded
  = (Raise (mk_exn SyntaxError "invalid syntax"), with_table unloaded).
Proof. vm_compute. reflexivity. Qed.

(** Loading the module again gives the same result and the same state as
    the first load, when the import of [mbuild] behaves the same each time
    and leaves the state alone: the table is rebuilt from an empty
    dictionary and the probe is run afresh. *)
Theorem module_body_reload h st o1 :
  (forall s, import_module h "mbuild" s = (o1, s)) ->
  module_body h (snd (module_body h st)) = module_body h st.
Proof.
  intros Hl.
  rewrite (module_body_run h st o1 _ (Hl _)).
  destruct o1 as [m|e|]; cbn [snd].
  - rewrite (module_body_run h _ (Return m) _ (Hl _)). reflexivity.
  - destruct (isinstance e ImportError) eqn:Hi; cbn [snd];
      rewrite (module_body_run h _ (Raise e) _ (Hl _)), Hi; reflexivity.
  - rewrite (module_body_run h _ Unsupported _ (Hl _)). reflexivity.
Qed.

Lemma module_body_reload_witness :
  module_body mbuild_host (snd (module_body mbuild_host unloaded))
  = module_body mbuild_host unloaded.
Proof.
  apply (module_body_reload mbuild_host unloaded
           (Return {| module_name := "mbuild"; module_id := 7 |})).
  intros s. reflexivity.
Defined.

(** * Further properties of the message *)

(** ** [textwrap.dedent] on texts without indentation *)

Lemma join_lines (s : string) : Str.join LF (Textwrap.lines s) = s.
Proof.
  unfold Textwrap.lines.
  induction s as [|c s IH]; [reflexivity|].
  cbn [Str.split_go].
  pose proof (split_go_nonempty "010" "" O s) as Hne.
  destruct (Ascii.eqb_spec c "010") as [->|Hc].
  - rewrite startswith_empty. cbn [andb String.length].
    destruct (Str.split_go "010" "" 0 s) as [|p ps]; [contradiction|].
    change (Str.join LF ("" :: p :: ps)) with (LF +:+ Str.join LF (p :: ps)).
    rewrite IH. reflexivity.
  - cbn [andb].
    destruct (Str.split_go "010" "" 0 s) as [|p ps]; [contradiction|].
    cbn [Str.push]. rewrite <- IH.
    destruct ps as [|q qs]; reflexivity.
Qed.

Lemma blank_out_flush (l : string) : flush l = true -> Textwrap.blank_out l = l.
Proof.
  destruct l as [|c l]; [reflexivity|]. cbn [flush]. intros Hc.
  unfold Textwrap.blank_out. cbn [Textwrap.span_blank].
  apply negb_true_iff in Hc. rewrite Hc. reflexivity.
Qed.

Lemma indent_of_flush (l : string) :
  flush l = true -> Textwrap.indent_of l = [] \/ Textwrap.indent_of l = [""].
Proof.
  destruct l as [|c l]; [left; reflexivity|]. cbn [flush]. intros Hc.
  unfold Textwrap.indent_of. cbn [Textwrap.span_blank].
  apply negb_true_iff in Hc. rewrite Hc. right. reflexivity.
Qed.

Lemma margin_of_flush (ls : list string) (acc : option string) :
  forallb flush ls = true ->
  acc = None \/ acc = Some "" ->
  let margin := foldl Textwrap.narrow acc (concat (map Textwrap.indent_of ls)) in
  margin = None \/ margin = Some "".
Proof.
  revert acc. induction ls as [|l ls IH]; intros acc Hall Hacc; [exact Hacc|].
  cbn [forallb] in Hall. apply andb_true_iff in Hall as [Hl Hall].
  cbn [map concat].
  destruct (indent_of_flush l Hl) as [-> | ->]; cbn [app foldl].
  - now apply IH.
  - apply IH; [assumption|]. right.
    destruct Hacc as [-> | ->]; reflexivity.
Qed.

Lemma map_blank_out_flush (ls : list string) :
  forallb flush ls = true -> map Textwrap.blank_out ls = ls.
Proof.
  induction ls as [|l ls IH]; [reflexivity|].
  cbn [forallb map]. intros H. apply andb_true_iff in H as [Hl Hall].
  now rewrite (blank_out_flush l Hl), IH.
Qed.

(** [dedent] leaves a text alone when none of its lines starts with a
    blank or a tab. *)
Lemma dedent_flush (text : string) :
  forallb flush (Textwrap.lines text) = true -> Textwrap.dedent text = text.
Proof.
  intros Hall. unfold Textwrap.dedent.
  rewrite (map_blank_out_flush _ Hall).
  destruct (margin_of_flush (Textwrap.lines text) None Hall (or_introl eq_refl))
    as [-> | ->]; apply join_lines.
Qed.

Lemma all_flush_lines (s : string) :
  (all_flush true s = true -> forallb flush (Textwrap.lines s) = true)
  /\ (all_flush false s = true ->
      forallb flush (tail (Textwrap.lines s)) = true).
Proof.
  unfold Textwrap.lines.
  induction s as [|c s [IHt IHf]]; [split; reflexivity|].
  cbn [all_flush Str.split_go].
  pose proof (split_go_nonempty "010" "" O s) as Hne.
  rewrite startswith_empty, andb_true_r. cbn [String.length].
  destruct (Ascii.eqb c "010") eqn:Hc.
  - split; intros H; apply andb_true_iff in H as [_ H];
      cbn [tail forallb flush andb]; auto.
  - destruct (Str.split_go "010" "" 0 s) as [|p ps]; [contradiction|].
    cbn [Str.push tail forallb flush]. cbn [tail] in IHf.
    split; intros H; apply andb_true_iff in H as [Hb H].
    + cbn [andb] in Hb. rewrite Hb. cbn [andb]. auto.
    + auto.
Qed.

Lemma all_flush_app (b : bool) (a s : string) :
  all_flush b (a +:+ s) = all_flush b a && all_flush (ends_line b a) s.
Proof.
  revert b. induction a as [|x a IH]; intros b; [reflexivity|].
  rewrite append_cons. cbn [all_flush ends_line].
  rewrite IH. now rewrite andb_assoc.
Qed.

Lemma lacks_newline_flush (a : string) :
  lacks "010" a = true ->
  all_flush false a = true /\ ends_line false a = false.
Proof.
  induction a as [|x a IH]; [split; reflexivity|].
  cbn [lacks all_flush ends_line]. intros H.
  apply andb_true_iff in H as [Hx Ha]. apply negb_true_iff in Hx.
  rewrite Hx. cbn [andb negb]. now apply IH.
Qed.

Lemma uint_lacks_newline (d : Decimal.uint) :
  lacks "010" (NilEmpty.string_of_uint d) = true.
Proof. induction d; cbn [NilEmpty.string_of_uint lacks]; auto. Qed.

Lemma nz_uint_lacks_newline (d : Decimal.uint) :
  lacks "010" (NilZero.string_of_uint d) = true.
Proof. destruct d; [reflexivity|..]; exact (uint_lacks_newline _). Qed.

(** The text of an [int] has no newline. *)
Lemma of_int_lacks_newline (n : Z) : lacks "010" (Str.of_int n) = true.
Proof.
  unfold Str.of_int, NilZero.string_of_int.
  destruct (Z.to_int n) as [d|d].
  - apply nz_uint_lacks_newline.
  - change (lacks "010" (NilZero.string_of_uint d) = true).
    apply nz_uint_lacks_newline.
Qed.

(** The interpolated templates start with two newlines and the line that
    names the caller; nothing after it starts a line with a blank. *)
Lemma replace_registered_shape base line module template :
  MESSAGES !! module = Some template ->
  exists tail,
    Placeholder.replace base line template
    = LF +:+ LF +:+ "The code at " +:+ base +:+ ":" +:+ line +:+ tail
    /\ all_flush false tail = true.
Proof.
  intros H.
  destruct (MESSAGES_keys _ _ H) as [[_ ->]|[[_ ->]|[_ ->]]].
  - exists (" requires the " +:+ DQ +:+ "mbuild" +:+ DQ +:+ " package" +:+ LF
            +:+ text_of_lines
                  [ ""; "mbuild can be installed using:"; "";
                    "# conda install -c conda-forge mbuild"; "" ]).
    split; vm_compute; reflexivity.
  - exists (" requires the " +:+ DQ +:+ "gmso" +:+ DQ +:+ " package" +:+ LF
            +:+ text_of_lines
                  [ ""; "gmso can be installed using:"; "";
                    "# conda install -c conda-forge gmso" ]).
    split; vm_compute; reflexivity.
  - exists (" requires the " +:+ DQ +:+ "openff-toolkit" +:+ DQ +:+ " package"
            +:+ LF
            +:+ text_of_lines
                  [ ""; "openff-toolkit can be installed using:"; "";
                    "# conda install -c conda-forge openff-toolkit" ]).
    split; vm_compute; reflexivity.
Qed.

Lemma dedent_registered base line module template :
  MESSAGES !! module = Some template ->
  lacks "010" base = true ->
  lacks "010" line = true ->
  Textwrap.dedent (Placeholder.replace base line template)
  = Placeholder.replace base line template.
Proof.
  intros H Hb Hl.
  destruct (replace_registered_shape base line module template H)
    as (tl & -> & Htl).
  apply dedent_flush, (proj1 (all_flush_lines _)).
  destruct (lacks_newline_flush base Hb) as [Hb1 Hb2].
  destruct (lacks_newline_flush line Hl) as [Hl1 Hl2].
  change (LF +:+ LF +:+ "The code at " +:+ base +:+ ":" +:+ line +:+ tl)
    with ((LF +:+ LF +:+ "The code at ") +:+ base +:+ ":" +:+ line +:+ tl).
  rewrite !all_flush_app.
  change (ends_line true (LF +:+ LF +:+ "The code at ")) with false.
  rewrite Hb1, Hb2.
  change (ends_line false ":") with false.
  rewrite Hl1, Hl2, Htl. reflexivity.
Qed.

(** ** The message for ordinary file names *)

(** When the base name of the caller's file has no newline in it, the
    dedent step changes nothing: the text of the [DelayImportError] is
    exactly the template with the two placeholders replaced, and it
    starts with two newlines followed by "The code at", the base name, a
    colon and the line number. *)
Theorem registered_message_exact h module st e st1 template caller :
  import_module h module st = (Raise e, st1) ->
  isinstance e ImportError = true ->
  g_MESSAGES st1 = MESSAGES ->
  MESSAGES !! module = Some template ->
  getouterframes h !! 1 = Some caller ->
  lacks "010" (basename h (filename caller)) = true ->
  let base := basename h (filename caller) in
  let line := Str.of_int (line_number caller) in
  fst (import_ h module st)
  = Raise (mk_exn DelayImportError (Placeholder.replace base line template))
  /\ exists tail,
       Placeholder.replace base line template
       = LF +:+ LF +:+ "The code at " +:+ base +:+ ":" +:+ line +:+ tail.
Proof.
  intros H Hi Ht Hk Hc Hb base line.
  assert (Hk1 : g_MESSAGES st1 !! module = Some template) by now rewrite Ht.
  destruct (import_registered h module st e st1 template caller _
              H Hi Hk1 Hc (format_registered h caller module template Hk))
    as (pieces & width & _ & _ & Hrun).
  fold base line in Hrun.
  rewrite (dedent_registered base line module template Hk Hb
             (of_int_lacks_newline _)) in Hrun.
  rewrite Hrun. split; [reflexivity|].
  destruct (replace_registered_shape base line module template Hk)
    as (tl & Htl & _).
  now exists tl.
Qed.

Lemma registered_message_exact_witness :
  fst (import_ bare_host "openff.toolkit" loaded)
  = Raise (mk_exn DelayImportError
             (Placeholder.replace "run.py" "12" openff_template))
  /\ exists tail,
       Placeholder.replace "run.py" "12" openff_template
       = LF +:+ LF +:+ "The code at " +:+ "run.py" +:+ ":" +:+ "12" +:+ tail.
Proof.
  apply (registered_message_exact bare_host "openff.toolkit" loaded
           (no_such_module "openff.toolkit") loaded openff_template
           {| frame := 1; filename := "/home/u/proj/run.py";
              line_number := 12; function_name := "<module>";
              lines := None; index := None |});
    reflexivity.
Defined.

(** A file name with a line of blanks in it: here the dedent step does
    change the message, it empties that line. *)
Example message_with_blank_line_in_name :
  let base := "a" +:+ LF +:+ "  " +:+ LF +:+ "b.py" in
  Textwrap.dedent (Placeholder.replace base "3" gmso_template)
  = Placeholder.replace ("a" +:+ LF +:+ LF +:+ "b.py") "3" gmso_template.
Proof. vm_compute. reflexivity. Qed.

(** ** The bar on a POSIX host *)

Lemma length_append (a b : string) :
  String.length (a +:+ b) = String.length a + String.length b.
Proof.
  induction a as [|x a IH]; [reflexivity|].
  rewrite append_cons. cbn [String.length]. now rewrite IH.
Qed.

Lemma lacks_app (c : ascii) (a b : string) :
  lacks c (a +:+ b) = lacks c a && lacks c b.
Proof.
  induction a as [|x a IH]; [reflexivity|].
  rewrite append_cons. cbn [lacks]. now rewrite IH, andb_assoc.
Qed.

(** A text without newline in front of [s] only lengthens the first line
    of [s]. *)
Lemma lines_app_lacks (a s : string) :
  lacks "010" a = true ->
  Textwrap.lines (a +:+ s)
  = match Textwrap.lines s with
    | p :: ps => (a +:+ p) :: ps
    | [] => [a]
    end.
Proof.
  unfold Textwrap.lines.
  pose proof (split_go_nonempty "010" "" O s) as Hne.
  induction a as [|x a IH]; intros Ha.
  - rewrite append_empty_l.
    destruct (Str.split_go "010" "" 0 s); [contradiction|reflexivity].
  - cbn [lacks] in Ha. apply andb_true_iff in Ha as [Hx Ha].
    apply negb_true_iff in Hx.
    rewrite append_cons. cbn [Str.split_go]. rewrite Hx. cbn [andb].
    rewrite (IH Ha).
    destruct (Str.split_go "010" "" 0 s); [contradiction|reflexivity].
Qed.

Lemma foldl_max_le (x : nat) (l : list nat) :
  Forall (fun y => y <= x) l -> foldl Nat.max x l = x.
Proof.
  induction l as [|y l IH]; intros H; [reflexivity|].
  apply Forall_cons in H as [Hy H]. cbn [foldl].
  rewrite Nat.max_l by exact Hy. now apply IH.
Qed.

(** The lines of an interpolated template: two empty lines, the line that
    names the caller, then lines that are all shorter than that one. *)
Lemma replace_registered_lines base line module template :
  MESSAGES !! module = Some template ->
  lacks "010" base = true ->
  lacks "010" line = true ->
  exists rest others,
    Textwrap.lines (Placeholder.replace base line template)
    = "" :: "" :: ("The code at " +:+ base +:+ ":" +:+ line +:+ rest) :: others
    /\ Forall (fun l => String.length l <= 12 + String.length rest)
         others.
Proof.
  intros H Hb Hl.
  assert (HA : lacks "010" ("The code at " +:+ base +:+ ":" +:+ line) = true).
  { rewrite !lacks_app, Hb, Hl. reflexivity. }
  assert (Hshape : forall rest more,
    Placeholder.replace base line template
    = LF +:+ LF +:+ "The code at " +:+ base +:+ ":" +:+ line
        +:+ rest +:+ LF +:+ more ->
    lacks "010" rest = true ->
    Textwrap.lines (Placeholder.replace base line template)
    = "" :: "" :: ("The code at " +:+ base +:+ ":" +:+ line +:+ rest)
         :: Textwrap.lines more).
  { intros rest more -> Hr.
    change (LF +:+ LF +:+ "The code at " +:+ base +:+ ":" +:+ line
              +:+ rest +:+ LF +:+ more)
      with (String "010" (String "010"
              ("The code at " +:+ base +:+ ":" +:+ line
                 +:+ rest +:+ LF +:+ more))).
    rewrite !lines_newline. do 2 f_equal.
    replace ("The code at " +:+ base +:+ ":" +:+ line +:+ rest +:+ LF +:+ more)
      with (("The code at " +:+ base +:+ ":" +:+ line +:+ rest)
              +:+ String "010" more)
      by (rewrite !append_assoc; reflexivity).
    rewrite lines_app_lacks.
    - rewrite lines_newline. now rewrite append_empty_r.
    - rewrite !lacks_app, Hb, Hl, Hr. reflexivity. }
  destruct (MESSAGES_keys _ _ H) as [[_ ->]|[[_ ->]|[_ ->]]].
  - eexists (" requires the " +:+ DQ +:+ "mbuild" +:+ DQ +:+ " package"), _.
    split.
    + apply (Hshape _ (text_of_lines
               [ ""; "mbuild can be installed using:"; "";
                 "# conda install -c conda-forge mbuild"; "" ]));
        vm_compute; reflexivity.
    + vm_compute. repeat constructor.
  - eexists (" requires the " +:+ DQ +:+ "gmso" +:+ DQ +:+ " package"), _.
    split.
    + apply (Hshape _ (text_of_lines
               [ ""; "gmso can be installed using:"; "";
                 "# conda install -c conda-forge gmso" ]));
        vm_compute; reflexivity.
    + vm_compute. repeat constructor.
  - eexists (" requires the " +:+ DQ +:+ "openff-toolkit" +:+ DQ
               +:+ " package"), _.
    split.
    + apply (Hshape _ (text_of_lines
               [ ""; "openff-toolkit can be installed using:"; "";
                 "# conda install -c conda-forge openff-toolkit" ]));
        vm_compute; reflexivity.
    + vm_compute. repeat constructor.
Qed.

(** On a POSIX host, for a caller whose file name has no newline, the
    printed bar is exactly as long as the third line of the message, the
    one that names the caller: that line is the longest one, whatever the
    base name and the line number are. *)
Theorem bar_matches_caller_line h module st e st1 template caller :
  import_module h module st = (Raise e, st1) ->
  isinstance e ImportError = true ->
  g_MESSAGES st1 = MESSAGES ->
  MESSAGES !! module = Some template ->
  getouterframes h !! 1 = Some caller ->
  os h = posix ->
  lacks "010" (basename h (filename caller)) = true ->
  let base := basename h (filename caller) in
  let line := Str.of_int (line_number caller) in
  let m := Placeholder.replace base line template in
  exists rest,
    Textwrap.lines m !! 2
    = Some ("The code at " +:+ base +:+ ":" +:+ line +:+ rest)
    /\ sys_stderr (snd (import_ h module st))
       = sys_stderr st1
           +:+ block m (String.length
                          ("The code at " +:+ base +:+ ":" +:+ line +:+ rest)).
Proof.
  intros H Hi Ht Hk Hc Hos Hb base line m.
  assert (Hk1 : g_MESSAGES st1 !! module = Some template) by now rewrite Ht.
  destruct (import_registered h module st e st1 template caller _
              H Hi Hk1 Hc (format_registered h caller module template Hk))
    as (pieces & width & Hs & Hm & Hrun).
  fold base line in Hs, Hrun.
  rewrite (dedent_registered base line module template Hk Hb
             (of_int_lacks_newline _)) in Hs, Hrun.
  fold m in Hs, Hrun.
  rewrite Hos in Hs.
  change (Some (Textwrap.lines m) = Some pieces) in Hs.
  injection Hs as <-.
  destruct (replace_registered_lines base line module template Hk Hb
              (of_int_lacks_newline _)) as (rest & others & Hlines & Hle).
  fold m in Hlines. rewrite Hlines in Hm |- *.
  exists rest. split; [reflexivity|].
  cbn [map py_max foldl String.length Nat.max] in Hm.
  rewrite foldl_max_le in Hm.
  - injection Hm as <-. rewrite Hrun. reflexivity.
  - clear -Hle. induction others as [|l ls IH]; [constructor|].
    apply Forall_cons in Hle as [Hl Hle]. cbn [map].
    constructor; [|now apply IH].
    rewrite !length_append. cbn [String.length]. lia.
Qed.

Lemma bar_matches_caller_line_witness :
  let m := Placeholder.replace "run.py" "12" mbuild_template in
  exists rest,
    Textwrap.lines m !! 2
    = Some ("The code at " +:+ "run.py" +:+ ":" +:+ "12" +:+ rest)
    /\ sys_stderr (snd (import_ bare_host "mbuild" loaded))
       = sys_stderr loaded
           +:+ block m (String.length
                          ("The code at " +:+ "run.py" +:+ ":" +:+ "12"
                             +:+ rest)).
Proof.
  apply (bar_matches_caller_line bare_host "mbuild" loaded
           (no_such_module "mbuild") loaded mbuild_template
           {| frame := 1; filename := "/home/u/proj/run.py";
              line_number := 12; function_name := "<module>";
              lines := None; index := None |});
    reflexivity.
Defined.

(** ** The directory of the caller *)

Lemma split_go_lacks (c : ascii) (s : string) :
  lacks c s = true -> Str.split_go c "" O s = [s].
Proof.
  induction s as [|x s IH]; [reflexivity|].
  cbn [lacks Str.split_go]. intros H.
  apply andb_true_iff in H as [Hx Hs]. apply negb_true_iff in Hx.
  rewrite Hx. cbn [andb]. now rewrite (IH Hs).
Qed.

Lemma split_go_app_sep (c : ascii) (a b : string) :
  Str.split_go c "" O (a +:+ String c b)
  = Str.split_go c "" O a ++ Str.split_go c "" O b.
Proof.
  induction a as [|x a IH].
  - rewrite append_empty_l. cbn [Str.split_go].
    now rewrite Ascii.eqb_refl, startswith_empty.
  - rewrite append_cons. cbn [Str.split_go].
    rewrite !startswith_empty, !andb_true_r. cbn [String.length].
    rewrite IH.
    destruct (Ascii.eqb x c); [reflexivity|].
    pose proof (split_go_nonempty c "" O a) as Hne.
    destruct (Str.split_go c "" 0 a); [contradiction|reflexivity].
Qed.

(** [posixpath.basename] of a path that ends with a slash-free name. *)
Lemma posix_basename_app (dir name : string) :
  lacks "/" name = true -> posix_basename (dir +:+ "/" +:+ name) = name.
Proof.
  intros Hn. unfold posix_basename.
  change (dir +:+ "/" +:+ name) with (dir +:+ String "/" name).
  rewrite split_go_app_sep, (split_go_lacks _ _ Hn).
  apply List.last_last.
Qed.

(** With [posixpath.basename], the message shows the name of the caller's
    file and nothing of its directory: for a file name that is a
    directory, a slash and a name without slash, the text of the error is
    the one for that name alone. *)
Theorem message_omits_directory h module st e st1 template caller dir name :
  import_module h module st = (Raise e, st1) ->
  isinstance e ImportError = true ->
  g_MESSAGES st1 = MESSAGES ->
  MESSAGES !! module = Some template ->
  getouterframes h !! 1 = Some caller ->
  basename h = posix_basename ->
  filename caller = dir +:+ "/" +:+ name ->
  lacks "/" name = true ->
  fst (import_ h module st)
  = Raise (mk_exn DelayImportError
             (Textwrap.dedent
                (Placeholder.replace name (Str.of_int (line_number caller))
                   template))).
Proof.
  intros H Hi Ht Hk Hc Hb Hf Hn.
  assert (Hk1 : g_MESSAGES st1 !! module = Some template) by now rewrite Ht.
  destruct (import_registered h module st e st1 template caller _
              H Hi Hk1 Hc (format_registered h caller module template Hk))
    as (pieces & width & _ & _ & Hrun).
  rewrite Hrun. cbn [fst].
  now rewrite Hb, Hf, (posix_basename_app dir name Hn).
Qed.

Lemma message_omits_directory_witness :
  fst (import_ bare_host "gmso" loaded)
  = Raise (mk_exn DelayImportError
             (Textwrap.dedent
                (Placeholder.replace "run.py" (Str.of_int 12) gmso_template))).
Proof.
  apply (message_omits_directory bare_host "gmso" loaded
           (no_such_module "gmso") loaded gmso_template
           {| frame := 1; filename := "/home/u/proj/run.py";
              line_number := 12; function_name := "<module>";
              lines := None; index := None |}
           "/home/u/proj" "run.py");
    reflexivity.
Defined.

(** * Further properties: [import_] inside a module that is imported *)

(** A [DelayImportError] raised while a module is being loaded does not
    survive an [import_] of that module: when [outer] has no hint, the
    hint for [inner] is printed once, by the inner call, and the outer
    call raises a plain [ImportError] that names [outer], which no skip
    check detects. *)
Theorem wrapped_failure_is_no_skip h outer inner obj frames st e st1
    template caller :
  import_module h inner st = (Raise e, st1) ->
  isinstance e ImportError = true ->
  g_MESSAGES st1 = MESSAGES ->
  MESSAGES !! inner = Some template ->
  MESSAGES !! outer = None ->
  getouterframes h !! 1 = Some caller ->
  exists m st2,
    import_ h inner st = (Raise (mk_exn DelayImportError m), st2)
    /\ import_ (wrapping_host h outer inner obj frames) outer st
       = (Raise (mk_exn ImportError ("No module named " +:+ outer)), st2)
    /\ isinstance (mk_exn ImportError ("No module named " +:+ outer)) SkipTest
       = false
    /\ sys_stderr st2 <> sys_stderr st1.
Proof.
  intros H Hi Ht Hk Ho Hc.
  assert (Hk1 : g_MESSAGES st1 !! inner = Some template) by now rewrite Ht.
  destruct (import_registered h inner st e st1 template caller _
              H Hi Hk1 Hc (format_registered h caller inner template Hk))
    as (pieces & width & _ & _ & Hrun).
  eexists _, _. split; [exact Hrun|]. split; [|split; [reflexivity|]].
  - apply import_unregistered with (e := mk_exn DelayImportError
      (Textwrap.dedent
         (Placeholder.replace (basename h (filename caller))
            (Str.of_int (line_number caller)) template))).
    + cbn [wrapping_host import_module]. rewrite String.eqb_refl.
      unfold bind. now rewrite Hrun.
    + reflexivity.
    + cbn [write_stderr g_MESSAGES]. now rewrite Ht.
  - cbn [write_stderr sys_stderr]. unfold block.
    generalize (sys_stderr st1) as s. intros s Heq.
    apply (f_equal String.length) in Heq.
    rewrite !length_append in Heq. cbn in Heq. lia.
Qed.

Lemma wrapped_failure_is_no_skip_witness :
  exists m st2,
    import_ plugin_host "gmso" loaded = (Raise (mk_exn DelayImportError m), st2)
    /\ import_ (wrapping_host plugin_host "plugin" "gmso" plugin_object
                  sample_frames) "plugin" loaded
       = (Raise (mk_exn ImportError ("No module named " +:+ "plugin")), st2)
    /\ isinstance (mk_exn ImportError ("No module named " +:+ "plugin"))
         SkipTest
       = false
    /\ sys_stderr st2 <> sys_stderr loaded.
Proof.
  apply (wrapped_failure_is_no_skip plugin_host "plugin" "gmso" plugin_object
           sample_frames loaded (no_such_module "gmso") loaded gmso_template
           {| frame := 2; filename := "/site-packages/plugin/__init__.py";
              line_number := 1; function_name := "<module>";
              lines := None; index := None |});
    reflexivity.
Defined.
